(** * Xiaomi MIoT binary sensors: a model of [binary_sensor.py]

    The platform module maps the services and properties of a MIoT device
    descriptor onto binary-sensor entities.  Python objects are records,
    dictionaries are finite maps (or item lists where the iteration order
    matters), [None] results and raised exceptions are made explicit.

    The file follows the module: Python values; the spec objects of
    [core/miot_spec.py]; entities with [is_on] and [state]; constructors
    and [async_setup_platform]; the BLE, Lumi and toilet updates.  Then
    come the statements in the words of the description, sample devices,
    and the properties proved of the code. *)

From Stdlib Require Import ZArith String Ascii List Bool Lia.
From stdpp Require Import base option list strings gmap fin_maps.
Import ListNotations.

Local Open Scope string_scope.
Local Open Scope Z_scope.

(** ** Python values *)

(** The dynamically typed values that travel through the module: JSON
    documents decoded from the cloud, attribute values, stored states.
    Numbers are integers; clock readings and timestamps are taken at a
    resolution of one second. *)
#[warnings="-register-all"]
Inductive pyval : Type :=
| PNone
| PBool (b : bool)
| PInt (z : Z)
| PStr (s : string)
| PList (l : list pyval)
| PDict (d : list (string * pyval)).

(** [v is None]. *)
Definition is_None (v : pyval) : bool :=
  match v with PNone => true | _ => false end.

(** Python truthiness ([if v:], [v or w], [not v]). *)
Definition truthy (v : pyval) : bool :=
  match v with
  | PNone => false
  | PBool b => b
  | PInt z => negb (z =? 0)
  | PStr s => negb (String.eqb s "")
  | PList l => match l with [] => false | _ :: _ => true end
  | PDict d => match d with [] => false | _ :: _ => true end
  end.

Definition py_or (v w : pyval) : pyval := if truthy v then v else w.
Definition py_and (v w : pyval) : pyval := if truthy v then w else v.
Definition py_not (v : pyval) : pyval := PBool (negb (truthy v)).

(** [x in [a, b, ...]] for a string [x]. *)
Definition in_strs (x : string) (l : list string) : bool :=
  existsb (String.eqb x) l.

(** [sub in s]: substring test on strings. *)
Fixpoint contains (sub s : string) : bool :=
  String.prefix sub s
  || match s with
     | EmptyString => false
     | String _ s' => contains sub s'
     end.

(** [v == s] for a string literal [s]. *)
Definition py_eq_str (v : pyval) (s : string) : bool :=
  match v with
  | PStr s' => String.eqb s' s
  | _ => false
  end.

(** [v != n] for an integer literal [n]; booleans compare as 0 and 1. *)
Definition py_ne_int (v : pyval) (n : Z) : bool :=
  match v with
  | PInt z => negb (z =? n)
  | PBool b => negb ((if b then 1 else 0) =? n)
  | _ => true
  end.

(** The integer a value stands for in an arithmetic comparison; the other
    types raise [TypeError] against an [int]. *)
Definition py_num (v : pyval) : option Z :=
  match v with
  | PInt z => Some z
  | PBool b => Some (if b then 1 else 0)
  | _ => None
  end.

(** [v <= n]. *)
Definition py_le_int (v : pyval) (n : Z) : option pyval :=
  z ← py_num v; Some (PBool (z <=? n)).

(** [d.get(k)] on a decoded object; a receiver that is not a [dict] has no
    [get] ([AttributeError]). *)
Fixpoint assoc (k : string) (d : list (string * pyval)) : option pyval :=
  match d with
  | [] => None
  | (k', v) :: d' => if String.eqb k' k then Some v else assoc k d'
  end.

Definition dict_get (v : pyval) (k : string) (default : pyval) : option pyval :=
  match v with
  | PDict d => Some (match assoc k d with Some x => x | None => default end)
  | _ => None
  end.

(** [v[0]]: lists and strings are subscriptable by position; a [dict]
    decoded from JSON has string keys only, so key [0] is missing. *)
Definition py_item0 (v : pyval) : option pyval :=
  match v with
  | PList (x :: _) => Some x
  | PStr (String c _) => Some (PStr (String c EmptyString))
  | _ => None
  end.

(** [len(v)]. *)
Definition py_len (v : pyval) : option Z :=
  match v with
  | PList l => Some (Z.of_nat (length l))
  | PStr s => Some (Z.of_nat (String.length s))
  | PDict d => Some (Z.of_nat (length d))
  | _ => None
  end.

(** [v[1]]. *)
Definition py_item1 (v : pyval) : option pyval :=
  match v with
  | PList (_ :: x :: _) => Some x
  | PStr (String _ (String c _)) => Some (PStr (String c EmptyString))
  | _ => None
  end.

(** ** The MIoT spec objects ([core/miot_spec.py]) *)

(** Modelled from the spec: a property of a service, with the attributes
    this module reads.  [core/miot_spec.py] is not among the sources; a
    value range is the triple (minimum, maximum, step), a value list pairs
    each value with its description, and a property is always truthy. *)
Record MiotProperty := {
  prop_name : string;
  prop_service : string;
  prop_format : string;
  value_list : list (Z * string);
  value_range : option (Z * Z * Z);
}.

(** Modelled from the spec: [MiotProperty.full_name], the service name and
    the property name joined by a dot. *)
Definition full_name (p : MiotProperty) : string :=
  prop_service p +:+ "." +:+ prop_name p.

(** Modelled from the spec: [MiotProperty.range_min] and [range_step], the
    first and third entries of the value range. *)
Definition range_min (p : MiotProperty) : option Z :=
  match value_range p with Some (mn, _, _) => Some mn | None => None end.

Definition range_step (p : MiotProperty) : option Z :=
  match value_range p with Some (_, _, stp) => Some stp | None => None end.

(** Modelled from the spec: [MiotProperty.from_dict], the entry of a state
    dictionary stored under the property's full name, [None] when absent. *)
Definition from_dict (p : MiotProperty) (dat : gmap string pyval) : pyval :=
  match dat !! full_name p with Some v => v | None => PNone end.

(** Modelled from the spec: [MiotProperty.list_value], the value whose
    description is the one asked for. *)
Definition list_value (p : MiotProperty) (des : string) : option Z :=
  fst <$> find (fun vd => String.eqb (snd vd) des) (value_list p).

(** Modelled from the spec: the data of a service.  [srv_mapping] is what
    [MiotService.mapping()] returns: the (siid, piid) pairs of the
    properties that can be read, by full name. *)
Record MiotNode := {
  srv_name : string;
  properties : list MiotProperty;
  srv_mapping : list (string * (Z * Z));
}.

Record MiotSpec := {
  spec_name : string;
  services : list MiotNode;
}.

(** A service object as the module holds it: the service and the spec it
    belongs to (its [spec] attribute). *)
Record MiotService := {
  node : MiotNode;
  spec : MiotSpec;
}.

Definition name (s : MiotService) : string := srv_name (node s).
Definition mapping (s : MiotService) : list (string * (Z * Z)) :=
  srv_mapping (node s).

(** Modelled from the spec: [MiotService.get_property(names...)], the first
    property carrying the first of the names that the service has; [None]
    when no name matches. *)
Fixpoint get_property (s : MiotService) (args : list string)
  : option MiotProperty :=
  match args with
  | [] => None
  | a :: args' =>
      match find (fun p => String.eqb (prop_name p) a) (properties (node s)) with
      | Some p => Some p
      | None => get_property s args'
      end
  end.

(** Modelled from the spec: [MiotService.get_properties(names...)], the
    service's properties whose name is among the names, in service order. *)
Definition get_properties (s : MiotService) (args : list string)
  : list MiotProperty :=
  filter (fun p => in_strs (prop_name p) args = true) (properties (node s)).

(** Modelled from the spec: [MiotService.bool_property(names...)], as
    [get_property] among the properties of boolean format. *)
Fixpoint bool_property (s : MiotService) (args : list string)
  : option MiotProperty :=
  match args with
  | [] => None
  | a :: args' =>
      match find (fun p => String.eqb (prop_name p) a
                           && String.eqb (prop_format p) "bool")
                 (properties (node s)) with
      | Some p => Some p
      | None => bool_property s args'
      end
  end.

(** Modelled from the spec: [MiotSpec.get_service(names...)], the first
    service carrying the first of the names that the spec has. *)
Fixpoint get_service (sp : MiotSpec) (args : list string) : option MiotService :=
  match args with
  | [] => None
  | a :: args' =>
      match find (fun n => String.eqb (srv_name n) a) (services sp) with
      | Some n => Some {| node := n; spec := sp |}
      | None => get_service sp args'
      end
  end.

(** Modelled from the spec: [MiotSpec.get_services(names...)], the spec's
    services whose name is among the names, in spec order. *)
Definition get_services (sp : MiotSpec) (args : list string) : list MiotService :=
  (fun n => {| node := n; spec := sp |})
    <$> filter (fun n => in_strs (srv_name n) args = true) (services sp).

(** Modelled from the spec: [MiotSpec.services_mapping(names...)], the
    mappings of the named services put together. *)
Definition services_mapping (sp : MiotSpec) (args : list string)
  : list (string * (Z * Z)) :=
  concat (mapping <$> get_services sp args).

(** ** Entities *)

(** The configuration of one device: the entries of the config dictionary
    that the module reads ([None] for a missing entry). *)
Record Config := {
  conf_miot_did : option string;
  conf_model : option string;
  conf_miot_type : option string;
}.

(** [str(config.get(key) or '')]. *)
Definition str_or_empty (o : option string) : string :=
  match o with Some s => s | None => "" end.

(** The f-string of [config.get(key)]: a missing entry prints as [None]. *)
Definition fstr (o : option string) : string :=
  match o with Some s => s | None => "None" end.

Inductive EntityClass :=
| MiotBinarySensorEntity
| BleBinarySensorEntity
| MiotToiletEntity
| LumiBinarySensorEntity.

Inductive SubClass := MiotModesSubEntity | SwitchSubEntity.

(** A helper entity kept in [_subs]: its class, the attribute a switch
    follows, the property a fan follows, the option dictionary it was
    given (absent, or its [power_property] entry), and how many times its
    [update()] has been called. *)
Record SubEntity := {
  sub_cls : SubClass;
  sub_attr : option string;
  sub_property : option MiotProperty;
  sub_option : option (option MiotProperty);
  sub_updates : nat;
}.

Definition sub_update (s : SubEntity) : SubEntity :=
  {| sub_cls := sub_cls s; sub_attr := sub_attr s;
     sub_property := sub_property s;
     sub_option := sub_option s;
     sub_updates := S (sub_updates s) |}.

(** The attributes of an entity object.  [cls] is the class whose
    constructor built it; [_add_entities] lists the domains that have
    registered an add-entities callback; [miot_cloud] tells whether the
    cloud client is a [MiotCloud]; the two [custom_config_*] fields give
    the results of the base-class accessors of the same names. *)
Record Entity := {
  cls : EntityClass;
  _miot_service : MiotService;
  _prop_state : option MiotProperty;
  _prop_illumination : option MiotProperty;
  _prop_power : option MiotProperty;
  _state : pyval;
  _state_attrs : gmap string pyval;
  _device_class : option string;
  _available : bool;
  _subs : gmap string SubEntity;
  _add_entities : list string;
  miot_did : option string;
  miot_cloud : bool;
  custom_config_bool : string -> option bool;
  custom_config_integer : string -> option Z;
}.

Definition with_cls (c : EntityClass) (e : Entity) : Entity :=
  {| cls := c; _miot_service := _miot_service e; _prop_state := _prop_state e;
     _prop_illumination := _prop_illumination e; _prop_power := _prop_power e;
     _state := _state e; _state_attrs := _state_attrs e;
     _device_class := _device_class e; _available := _available e;
     _subs := _subs e; _add_entities := _add_entities e;
     miot_did := miot_did e; miot_cloud := miot_cloud e;
     custom_config_bool := custom_config_bool e;
     custom_config_integer := custom_config_integer e |}.

Definition with_prop_state (p : option MiotProperty) (e : Entity) : Entity :=
  {| cls := cls e; _miot_service := _miot_service e; _prop_state := p;
     _prop_illumination := _prop_illumination e; _prop_power := _prop_power e;
     _state := _state e; _state_attrs := _state_attrs e;
     _device_class := _device_class e; _available := _available e;
     _subs := _subs e; _add_entities := _add_entities e;
     miot_did := miot_did e; miot_cloud := miot_cloud e;
     custom_config_bool := custom_config_bool e;
     custom_config_integer := custom_config_integer e |}.

Definition with_prop_illumination (p : option MiotProperty) (e : Entity) : Entity :=
  {| cls := cls e; _miot_service := _miot_service e; _prop_state := _prop_state e;
     _prop_illumination := p; _prop_power := _prop_power e;
     _state := _state e; _state_attrs := _state_attrs e;
     _device_class := _device_class e; _available := _available e;
     _subs := _subs e; _add_entities := _add_entities e;
     miot_did := miot_did e; miot_cloud := miot_cloud e;
     custom_config_bool := custom_config_bool e;
     custom_config_integer := custom_config_integer e |}.

Definition with_state (v : pyval) (e : Entity) : Entity :=
  {| cls := cls e; _miot_service := _miot_service e; _prop_state := _prop_state e;
     _prop_illumination := _prop_illumination e; _prop_power := _prop_power e;
     _state := v; _state_attrs := _state_attrs e;
     _device_class := _device_class e; _available := _available e;
     _subs := _subs e; _add_entities := _add_entities e;
     miot_did := miot_did e; miot_cloud := miot_cloud e;
     custom_config_bool := custom_config_bool e;
     custom_config_integer := custom_config_integer e |}.

Definition with_state_attrs (m : gmap string pyval) (e : Entity) : Entity :=
  {| cls := cls e; _miot_service := _miot_service e; _prop_state := _prop_state e;
     _prop_illumination := _prop_illumination e; _prop_power := _prop_power e;
     _state := _state e; _state_attrs := m;
     _device_class := _device_class e; _available := _available e;
     _subs := _subs e; _add_entities := _add_entities e;
     miot_did := miot_did e; miot_cloud := miot_cloud e;
     custom_config_bool := custom_config_bool e;
     custom_config_integer := custom_config_integer e |}.

Definition with_device_class (d : option string) (e : Entity) : Entity :=
  {| cls := cls e; _miot_service := _miot_service e; _prop_state := _prop_state e;
     _prop_illumination := _prop_illumination e; _prop_power := _prop_power e;
     _state := _state e; _state_attrs := _state_attrs e;
     _device_class := d; _available := _available e;
     _subs := _subs e; _add_entities := _add_entities e;
     miot_did := miot_did e; miot_cloud := miot_cloud e;
     custom_config_bool := custom_config_bool e;
     custom_config_integer := custom_config_integer e |}.

Definition with_subs (m : gmap string SubEntity) (e : Entity) : Entity :=
  {| cls := cls e; _miot_service := _miot_service e; _prop_state := _prop_state e;
     _prop_illumination := _prop_illumination e; _prop_power := _prop_power e;
     _state := _state e; _state_attrs := _state_attrs e;
     _device_class := _device_class e; _available := _available e;
     _subs := m; _add_entities := _add_entities e;
     miot_did := miot_did e; miot_cloud := miot_cloud e;
     custom_config_bool := custom_config_bool e;
     custom_config_integer := custom_config_integer e |}.

(** Modelled from the spec: [update_attrs] of the base class (outside this
    module) merges the given dictionary into [_state_attrs]; the new
    entries win. *)
Definition update_attrs (adt : gmap string pyval) (e : Entity) : Entity :=
  with_state_attrs (adt ∪ _state_attrs e) e.

Definition STATE_ON : string := "on".
Definition STATE_OFF : string := "off".
Definition STATE_UNKNOWN : string := "unknown".
Definition DEVICE_CLASS_MOTION : string := "motion".
Definition DEVICE_CLASS_DOOR : string := "door".
Definition DEVICE_CLASS_MOISTURE : string := "moisture".

(** A [None]-or-bool result used as a condition. *)
Definition opt_true (o : option bool) : bool :=
  match o with Some b => b | None => false end.

(** [MiotBinarySensorEntity.is_on]; [None] is a raised [TypeError]. *)
Definition is_on (self : Entity) : option pyval :=
  match _prop_state self with
  | None => Some (_state self)
  | Some p =>
      let val := from_dict p (_state_attrs self) in
      match val with
      | PNone => Some (_state self)
      | _ =>
          if opt_true (custom_config_bool self "reverse_state") then
            Some (py_not val)
          else if in_strs (prop_name p) ["no_motion_duration"; "nobody_time"] then
            let dur := custom_config_integer self "motion_timeout" in
            dur ← match dur, value_range p with
                  | None, Some _ =>
                      stp ← range_step p;
                      if 10 <=? stp
                      then mn ← range_min p; Some (Some (mn + stp))
                      else Some dur
                  | _, _ => Some dur
                  end;
            let dur := match dur with Some d => d | None => 60 end in
            py_le_int val dur
          else Some (py_and val (PBool true))
      end
  end.

(** [MiotBinarySensorEntity.state], inherited by [BleBinarySensorEntity],
    [MiotToiletEntity] and [LumiBinarySensorEntity]. *)
Definition state (self : Entity) : option string :=
  iso ← is_on self;
  Some (match iso with
        | PNone => STATE_UNKNOWN
        | _ => if truthy iso then STATE_ON else STATE_OFF
        end).

(** ** Constructors and platform setup *)

Definition first_some {A : Type} (a b : option A) : option A :=
  match a with Some _ => a | None => b end.

(** The [state_property] attribute written at the end of a constructor. *)
Definition state_property_attr (self : Entity) : pyval :=
  match _prop_state self with
  | Some p => PStr (full_name p)
  | None => PNone
  end.

Definition is_some {A : Type} (o : option A) : bool :=
  match o with Some _ => true | None => false end.

Section Platform.

(** The constructor of the base class [MiotToggleEntity], which lives
    outside this module: from the service, the configuration and the
    optional [mapping] keyword it yields the object that the constructors
    below go on to fill. *)
Variable MiotToggleEntity_init :
  MiotService -> Config -> option (list (string * (Z * Z))) -> Entity.

(** [MiotSpec.async_from_type]: the spec registered for a type string. *)
Variable async_from_type : string -> MiotSpec.

(** The list [pls] of the constructor: the name of the first property of
    the service, when there is one and the name is not empty. *)
Definition initial_pls (miot_service : MiotService) : list string :=
  match properties (node miot_service) with
  | p :: _ =>
      if negb (String.eqb (prop_name p) "") then [prop_name p] else []
  | [] => []
  end.

(** [MiotBinarySensorEntity.__init__]; [None] is the [AttributeError]
    raised by reading [name] off a missing state property. *)
Definition MiotBinarySensorEntity_init (config : Config)
    (miot_service : MiotService) (kw : option (list (string * (Z * Z))))
  : option Entity :=
  let self := with_cls MiotBinarySensorEntity
                (MiotToggleEntity_init miot_service config kw) in
  let pls := initial_pls miot_service in
  let self := with_prop_state (get_property miot_service pls) self in
  self ← (if in_strs (name miot_service) ["motion_sensor"] then
            let self :=
              with_prop_state
                (first_some
                   (get_property miot_service ["motion_state"; "no_motion_duration"])
                   (_prop_state self)) self in
            p ← _prop_state self;
            let self := if in_strs (prop_name p) ["illumination"]
                        then with_prop_state None self else self in
            let self := with_device_class (Some DEVICE_CLASS_MOTION) self in
            Some (match _prop_state self with
                  | None =>
                      match get_service (spec miot_service) ["nobody_time"] with
                      | Some srv =>
                          with_prop_state (get_property srv ["nobody_time"]) self
                      | None => self
                      end
                  | Some _ => self
                  end)
          else Some self);
  let self :=
    if in_strs (name miot_service) ["magnet_sensor"] then
      with_device_class (Some DEVICE_CLASS_DOOR)
        (with_prop_state
           (first_some (get_property miot_service ["contact_state"])
                       (_prop_state self)) self)
    else self in
  let self :=
    if in_strs (name miot_service) ["submersion_sensor"] then
      with_device_class (Some DEVICE_CLASS_MOISTURE)
        (with_prop_state
           (first_some (get_property miot_service ["submersion_state"])
                       (_prop_state self)) self)
    else self in
  Some (with_state_attrs
          (<["state_property" := state_property_attr self]> (_state_attrs self))
          self).

(** [BleBinarySensorEntity.__init__]. *)
Definition BleBinarySensorEntity_init (config : Config)
    (miot_service : MiotService) : option Entity :=
  self ← MiotBinarySensorEntity_init config miot_service None;
  let self := with_cls BleBinarySensorEntity self in
  let self := with_prop_illumination
                (get_property miot_service ["illumination"]) self in
  Some (match _prop_illumination self with
        | Some _ => self
        | None =>
            match get_service (spec miot_service) ["illumination_sensor"] with
            | Some srv =>
                with_prop_illumination (get_property srv ["illumination"]) self
            | None => self
            end
        end).

(** [MiotToiletEntity.__init__]. *)
Definition MiotToiletEntity_init (config : Config)
    (miot_service : MiotService) : option Entity :=
  let model := fstr (conf_model config) in
  let mapping :=
    if contains "xjx.toilet." model
    then Some (services_mapping (spec miot_service) ["toilet"; "seat"])
    else None in
  self ← MiotBinarySensorEntity_init config miot_service mapping;
  let self := with_cls MiotToiletEntity self in
  let self := with_prop_state (get_property miot_service ["seating_state"]) self in
  let self :=
    match _prop_state self with
    | Some _ => self
    | None => with_prop_state (get_property miot_service ["mode"; "status"]) self
    end in
  Some (with_state_attrs
          (<["state_property" := state_property_attr self]> (_state_attrs self))
          self).

(** [LumiBinarySensorEntity.__init__]. *)
Definition LumiBinarySensorEntity_init (config : Config)
    (miot_service : MiotService) : option Entity :=
  self ← MiotBinarySensorEntity_init config miot_service None;
  Some (with_cls LumiBinarySensorEntity self).

(** The guard at the head of the loop of [async_setup_platform]: [true]
    when the service is passed over by [continue]. *)
Definition skipped (model : string) (sp : MiotSpec) (srv : MiotService) : bool :=
  if is_some (get_service sp ["nobody_time"]) then false
  else if in_strs model ["lumi.sensor_wleak.aq1"] then false
  else match mapping srv with [] => true | _ :: _ => false end.

(** The constructor call of one loop iteration. *)
Definition new_entity (config : Config) (did model : string) (sp : MiotSpec)
    (srv : MiotService) : option Entity :=
  if in_strs (name srv) ["toilet"] then MiotToiletEntity_init config srv
  else if in_strs (name srv) ["seat"] && in_strs (spec_name sp) ["toilet"]
  then MiotToiletEntity_init config srv
  else if contains "blt." did then BleBinarySensorEntity_init config srv
  else if contains "lumi." model then LumiBinarySensorEntity_init config srv
  else MiotBinarySensorEntity_init config srv None.

(** The loop over the selected services, appending to [entities]; an
    exception raised by a constructor ends the setup. *)
Fixpoint setup_services (config : Config) (did model : string) (sp : MiotSpec)
    (srvs : list MiotService) (entities : list Entity) : option (list Entity) :=
  match srvs with
  | [] => Some entities
  | srv :: rest =>
      if skipped model sp srv then
        setup_services config did model sp rest entities
      else
        e ← new_entity config did model sp srv;
        setup_services config did model sp rest (entities ++ [e])
  end.

(** [async_setup_platform]: the entities handed to [async_add_entities]. *)
Definition async_setup_platform (config : Config) : option (list Entity) :=
  let did := str_or_empty (conf_miot_did config) in
  let model := str_or_empty (conf_model config) in
  match conf_miot_type config with
  | Some miot =>
      if negb (String.eqb miot "") then
        let sp := async_from_type miot in
        setup_services config did model sp
          (get_services sp ["toilet"; "seat"; "motion_sensor";
                            "magnet_sensor"; "submersion_sensor"])
          []
      else Some []
  | None => Some []
  end.

End Platform.

(** ** Updates *)

(** The library functions the updates call, as partial functions ([None]
    is a raised exception): [json.loads], the printed form of
    [datetime.fromtimestamp], and [float] and [int] applied to a string. *)
Record PyLib := {
  json_loads : string -> option pyval;
  fromtimestamp : Z -> option string;
  float_of_str : string -> option Z;
  int_of_str : string -> option Z;
}.

(** [json.loads(s)]; the text of the empty array decodes to the empty list. *)
Definition loads (py : PyLib) (s : string) : option pyval :=
  if String.eqb s "[]" then Some (PList []) else json_loads py s.

(** [float(v)] and [int(v)]. *)
Definition py_float (py : PyLib) (v : pyval) : option Z :=
  match v with
  | PInt z => Some z
  | PBool b => Some (if b then 1 else 0)
  | PStr s => float_of_str py s
  | _ => None
  end.

Definition py_int (py : PyLib) (v : pyval) : option Z :=
  match v with
  | PInt z => Some z
  | PBool b => Some (if b then 1 else 0)
  | PStr s => int_of_str py s
  | _ => None
  end.

(** The value of a hexadecimal digit. *)
Definition hexval (c : ascii) : option Z :=
  let n := Z.of_nat (nat_of_ascii c) in
  if (48 <=? n) && (n <=? 57) then Some (n - 48)
  else if (97 <=? n) && (n <=? 102) then Some (n - 87)
  else if (65 <=? n) && (n <=? 70) then Some (n - 55)
  else None.

(** ASCII whitespace, which [bytes.fromhex] passes over between bytes. *)
Definition is_space (c : ascii) : bool :=
  let n := Z.of_nat (nat_of_ascii c) in
  (n =? 32) || ((9 <=? n) && (n <=? 13)).

(** [bytes.fromhex(s)]: two digits per byte; [None] is [ValueError]. *)
Fixpoint fromhex (s : string) : option (list Z) :=
  match s with
  | EmptyString => Some []
  | String c s' =>
      if is_space c then fromhex s'
      else match s' with
           | EmptyString => None
           | String c2 s'' =>
               hi ← hexval c; lo ← hexval c2; rest ← fromhex s'';
               Some (hi * 16 + lo :: rest)
           end
  end.

(** [int.from_bytes(bs, 'little')]. *)
Fixpoint from_bytes_little (bs : list Z) : Z :=
  match bs with
  | [] => 0
  | b :: rest => b + 256 * from_bytes_little rest
  end.

(** The [try] block decoding a truthy BLE object value; a value that is
    not a string or not hexadecimal is replaced by [None] (and logged). *)
Definition decode_ble_value (val : pyval) : pyval :=
  if truthy val then
    match val with
    | PStr s =>
        match fromhex s with
        | Some bs => PInt (from_bytes_little bs)
        | None => PNone
        end
    | _ => PNone
    end
  else val.

(** [custom_config_integer('motion_timeout') or 60]. *)
Definition motion_timeout_or_60 (self : Entity) : Z :=
  match custom_config_integer self "motion_timeout" with
  | Some d => if d =? 0 then 60 else d
  | None => 60
  end.

(** [vlk] for the illumination objects: the full name of the illumination
    property when it has a value range. *)
Definition illumination_key (self : Entity) : string :=
  match _prop_illumination self with
  | Some p => if is_some (value_range p) then full_name p else "illumination"
  | None => "illumination"
  end.

Section Updates.

Variable py : PyLib.

(** [time.time()], read once per update. *)
Variable now : Z.

(** The head of the loop body of [async_update_ble_data] for an entry
    [k, v] with [v] not [None]: whether the key names an event, the
    timestamp [tim] and the decoded value [val]. *)
Definition ble_object (k : string) (v : pyval) : option (bool * Z * pyval) :=
  let ise := contains "event." k in
  evt ← (if ise
         then match v with PStr s => loads py s | _ => None end
         else Some (PDict [("value", PList [v])]));
  ts ← dict_get evt "timestamp" PNone;
  tim ← py_float py (py_or ts (PInt 0));
  vls ← dict_get evt "value" PNone;
  val ← (if truthy vls then py_item0 vls else Some PNone);
  Some (ise, tim, decode_ble_value val).

(** [adt[vlk] = val] under the guard [val is not None]. *)
Definition set_value (vlk : string) (val : pyval) (adt : gmap string pyval)
  : gmap string pyval :=
  if is_None val then adt else <[vlk := val]> adt.

(** One iteration of the loop of [async_update_ble_data] over the items
    of [props], on the accumulators [sta] and [adt]. *)
Definition ble_step (self : Entity) (k : string) (v : pyval)
    (sta : option bool) (adt : gmap string pyval)
  : option (option bool * gmap string pyval) :=
  if is_None v then Some (sta, adt)
  else
    '(ise, tim, val) ← ble_object k v;
    if ise && (tim =? 0) then Some (sta, adt)
    else if String.eqb k "event.15" then
      at_ ← fromtimestamp py tim;
      let adt := <["trigger_at" := PStr at_]>
                   (<["trigger_time" := PInt tim]> adt) in
      let dif := now - tim in
      let sta := Some (dif <=? motion_timeout_or_60 self) in
      Some (sta, set_value (illumination_key self) val adt)
    else if String.eqb k "prop.4103" then
      Some (sta, set_value (illumination_key self) val adt)
    else if String.eqb k "prop.4119" then
      let vlk := match get_property (_miot_service self) ["no_motion_duration"] with
                 | Some prop => full_name prop
                 | None => "no_motion_duration"
                 end in
      Some (sta, set_value vlk val adt)
    else if String.eqb k "prop.4120" then
      let adt := <["light_strong" := PBool (truthy val)]> adt in
      let des := if truthy val then "strong" else "weak" in
      let adt :=
        match _prop_illumination self with
        | Some p =>
            match value_list p with
            | [] => adt
            | _ :: _ =>
                match list_value p des with
                | Some vid => <[full_name p := PInt vid]> adt
                | None => adt
                end
            end
        | None => adt
        end in
      Some (sta, <["illumination_level" := PStr des]> adt)
    else if String.eqb k "prop.4121" then
      Some (Some (py_ne_int val 2), adt)
    else Some (sta, adt).

Fixpoint ble_loop (self : Entity) (items : list (string * pyval))
    (sta : option bool) (adt : gmap string pyval)
  : option (option bool * gmap string pyval) :=
  match items with
  | [] => Some (sta, adt)
  | (k, v) :: rest =>
      '(sta, adt) ← ble_step self k v sta adt;
      ble_loop self rest sta adt
  end.

(** The items of [props], the entry for the device in the [result] of
    the cloud answer [rdt]. *)
Definition ble_props (rdt : pyval) (did : string) : option (list (string * pyval)) :=
  let rdt := py_or rdt (PDict []) in
  res ← dict_get rdt "result" PNone;
  props ← dict_get (py_or res (PDict [])) did (PDict []);
  match props with PDict d => Some d | _ => None end.

(** [BleBinarySensorEntity.async_update_ble_data]; [rdt] is what
    [request_miot_api] returned, [None] a raised exception. *)
Definition async_update_ble_data (rdt : pyval) (self : Entity) : option Entity :=
  match miot_did self with
  | Some did =>
      if negb (String.eqb did "") && miot_cloud self then
        items ← ble_props rdt did;
        '(sta, adt) ← ble_loop self items None ∅;
        let self := match sta with
                    | Some b => with_state (PBool b) self
                    | None => self
                    end in
        Some (if decide (adt = ∅) then self else update_attrs adt self)
      else Some self
  | None => Some self
  end.

(** The decoded device log [pes] of [LumiBinarySensorEntity.async_update]:
    [None] without a [MiotCloud], else the decoding of the fetched text,
    with the text of the empty array in place of an empty answer. *)
Definition lumi_log (fetched : option string) (self : Entity) : option pyval :=
  if miot_cloud self
  then loads py (match fetched with
                 | Some s => if String.eqb s "" then "[]" else s
                 | None => "[]"
                 end)
  else Some PNone.

(** [LumiBinarySensorEntity.async_update], from the point where the
    update of the base class has returned; [fetched] is what
    [get_last_device_data] returned. *)
Definition LumiBinarySensorEntity_async_update (fetched : option string)
    (self : Entity) : option Entity :=
  if negb (_available self) then Some self
  else
    pes ← lumi_log fetched self;
    n ← (if truthy pes then py_len pes else Some 0);
    '(typ, adt, dif) ←
      (if truthy pes && (2 <=? n) then
         p1 ← py_item1 pes;
         typ ← py_item0 p1;
         p0 ← py_item0 pes;
         tt ← py_int py (py_or p0 (PInt 0));
         at_ ← fromtimestamp py tt;
         Some (typ,
               <["trigger_at" := PStr at_]>
                 (<["trigger_time" := PInt tt]>
                    (<["trigger_type" := typ]> (∅ : gmap string pyval))),
               now - tt)
       else Some (PNone, ∅, now));
    adt ← (if py_eq_str typ "prop.illumination" then
             match get_property (_miot_service self) ["illumination"] with
             | Some prop =>
                 p1 ← py_item1 pes; p11 ← py_item1 p1; x ← py_item0 p11;
                 Some (<[full_name prop := x]> adt)
             | None => Some adt
             end
           else Some adt);
    let self := with_state PNone self in
    let self :=
      if py_eq_str typ "event.motion"
         || in_strs (name (_miot_service self)) ["motion_sensor"]
      then with_state (PBool (dif <=? motion_timeout_or_60 self)) self
      else if py_eq_str typ "event.open" || py_eq_str typ "event.close"
      then with_state (PBool (py_eq_str typ "event.open")) self
      else if py_eq_str typ "event.leak" || py_eq_str typ "event.no_leak"
      then with_state (PBool (py_eq_str typ "event.leak")) self
      else self in
    let adt :=
      match _prop_state self, _state self with
      | Some p, PNone => adt
      | Some p, st => <[full_name p := st]> adt
      | None, _ => adt
      end in
    Some (if decide (adt = ∅) then self else update_attrs adt self).

End Updates.

Section Toilet.

(** [_update_sub_entities] of the base class, which lives outside this
    module: called with the property names, the service names and the
    domain, it returns the entity with its helper entities refreshed. *)
Variable _update_sub_entities :
  list string -> list string -> string -> Entity -> Entity.

(** [p.value_list or p.value_range]. *)
Definition has_values (p : MiotProperty) : bool :=
  match value_list p with
  | [] => is_some (value_range p)
  | _ :: _ => true
  end.

(** The fan helper built for property [p] of service [srv]. *)
Definition new_fan (p : MiotProperty) (srv : MiotService) : SubEntity :=
  {| sub_cls := MiotModesSubEntity;
     sub_attr := None;
     sub_property := Some p;
     sub_option := if in_strs (prop_name p) ["heat_level"]
                   then Some (bool_property srv ["heating"])
                   else None;
     sub_updates := 0 |}.

Definition new_switch (pnm : string) : SubEntity :=
  {| sub_cls := SwitchSubEntity;
     sub_attr := Some pnm;
     sub_property := None;
     sub_option := None;
     sub_updates := 0 |}.

(** The loop of [MiotToiletEntity.async_update] over [pls]; each property
    comes with the service that owns it.  [added] collects the helpers
    handed to [add_fans], in call order. *)
Fixpoint fans_loop (add_fans : bool) (pls : list (MiotProperty * MiotService))
    (subs : gmap string SubEntity) (added : list (string * SubEntity))
  : gmap string SubEntity * list (string * SubEntity) :=
  match pls with
  | [] => (subs, added)
  | (p, srv) :: rest =>
      if negb (has_values p) then fans_loop add_fans rest subs added
      else
        match subs !! prop_name p with
        | Some s =>
            fans_loop add_fans rest (<[prop_name p := sub_update s]> subs) added
        | None =>
            if add_fans then
              let s := new_fan p srv in
              fans_loop add_fans rest (<[prop_name p := s]> subs)
                        (added ++ [(prop_name p, s)])%list
            else fans_loop add_fans rest subs added
        end
  end.

(** The part of the update that deals with the power switch. *)
Definition power_switch (add_switches : bool) (prop_power : option MiotProperty)
    (subs : gmap string SubEntity) (added : list (string * SubEntity))
  : gmap string SubEntity * list (string * SubEntity) :=
  match prop_power with
  | Some pw =>
      let pnm := full_name pw in
      match subs !! pnm with
      | Some s => (<[pnm := sub_update s]> subs, added)
      | None =>
          if add_switches then
            let s := new_switch pnm in
            (<[pnm := s]> subs, (added ++ [(pnm, s)])%list)
          else (subs, added)
      end
  | None => (subs, added)
  end.

(** The properties the update goes through, and the entity after the
    call of [_update_sub_entities], if any. *)
Definition toilet_pls (self : Entity) : Entity * list (MiotProperty * MiotService) :=
  let srv := _miot_service self in
  let pls : list (MiotProperty * MiotService) :=
    (fun p => (p, srv))
               <$> get_properties srv ["mode"; "washing_strength";
                                       "nozzle_position"; "heat_level"] in
  match get_service (spec srv) ["seat"] with
  | Some seat =>
      match get_property seat ["heat_level"] with
      | Some prop => (self, (pls ++ [(prop, seat)])%list)
      | None =>
          (_update_sub_entities ["heating"; "deodorization"] [name seat]
             "switch" self, pls)
      end
  | None => (self, pls)
  end.

(** [MiotToiletEntity.async_update], from the point where the update of
    the base class has returned: the entity, the helpers handed to
    [add_fans] and those handed to [add_switches]. *)
Definition MiotToiletEntity_async_update (self : Entity)
  : Entity * list (string * SubEntity) * list (string * SubEntity) :=
  if negb (_available self) then (self, [], [])
  else
    let add_fans := in_strs "fan" (_add_entities self) in
    let '(self, pls) := toilet_pls self in
    let '(subs, fans) := fans_loop add_fans pls (_subs self) [] in
    let add_switches := in_strs "switch" (_add_entities self) in
    let '(subs, switches) := power_switch add_switches (_prop_power self) subs [] in
    (with_subs subs self, fans, switches).

End Toilet.

(** ** Statements compared with the code *)

(** The threshold a duration property is compared with, in the words of
    the description: the configured [motion_timeout]; failing that, the
    range minimum plus the range step when the property has a value range
    whose step is at least 10; failing that, 60. *)
Definition duration_threshold (self : Entity) (p : MiotProperty) : Z :=
  match custom_config_integer self "motion_timeout" with
  | Some d => d
  | None =>
      match value_range p with
      | Some (mn, _, stp) => if 10 <=? stp then mn + stp else 60
      | None => 60
      end
  end.




(** The services the description selects: one of the five names, and a
    mapping that is not empty unless the spec has a [nobody_time] service
    or the model is the water-leak sensor. *)
Definition selected (model : string) (sp : MiotSpec) (n : MiotNode) : bool :=
  in_strs (srv_name n)
    ["toilet"; "seat"; "motion_sensor"; "magnet_sensor"; "submersion_sensor"]
  && (is_some (get_service sp ["nobody_time"])
      || String.eqb model "lumi.sensor_wleak.aq1"
      || match srv_mapping n with [] => false | _ :: _ => true end).

(** The timestamp of a BLE event entry: the [timestamp] member of the
    decoded text, 0 when the member is missing or falsy. *)
Definition event_time (py : PyLib) (v : pyval) : option Z :=
  match v with
  | PStr s =>
      evt ← loads py s;
      ts ← dict_get evt "timestamp" PNone;
      py_float py (py_or ts (PInt 0))
  | _ => None
  end.

(** Whether a string has a dot in it; full names do, plain attribute
    names do not. *)
Fixpoint has_dot (s : string) : bool :=
  match s with
  | EmptyString => false
  | String c s' => Ascii.eqb c "." || has_dot s'
  end.

(** The plain attribute names that the BLE objects other than the motion
    event write. *)
Definition ble_plain_keys : list string :=
  ["illumination"; "no_motion_duration"; "light_strong"; "illumination_level"].

(** The entity a Lumi update leaves when the log gives no trigger. *)
Definition lumi_without_log (now : Z) (self : Entity) : Entity :=
  if in_strs (name (_miot_service self)) ["motion_sensor"] then
    let st := PBool (now <=? motion_timeout_or_60 self) in
    match _prop_state self with
    | Some p => update_attrs {[ full_name p := st ]} (with_state st self)
    | None => with_state st self
    end
  else with_state PNone self.

(** A helper entity is kept when the entry stored under its key is the
    same helper, possibly with more calls of [update()]. *)
Definition sub_kept (s s' : SubEntity) : Prop :=
  sub_cls s' = sub_cls s /\ sub_attr s' = sub_attr s
  /\ sub_property s' = sub_property s /\ sub_option s' = sub_option s
  /\ (sub_updates s <= sub_updates s')%nat.

(** ** Sample devices *)

Definition sample_property (srv nm : string) : MiotProperty :=
  {| prop_name := nm; prop_service := srv; prop_format := "uint8";
     value_list := []; value_range := None |}.

Definition sample_duration : MiotProperty :=
  {| prop_name := "no_motion_duration"; prop_service := "motion_sensor";
     prop_format := "uint16"; value_list := [];
     value_range := Some (0, 3600, 60) |}.

Definition sample_motion_node : MiotNode :=
  {| srv_name := "motion_sensor";
     properties := [sample_property "motion_sensor" "illumination"; sample_duration];
     srv_mapping := [("motion_sensor.illumination", (2, 1))] |}.

Definition sample_battery_node : MiotNode :=
  {| srv_name := "battery";
     properties := [sample_property "battery" "battery_level"];
     srv_mapping := [("battery.battery_level", (3, 1))] |}.

Definition sample_motion_spec : MiotSpec :=
  {| spec_name := "motion_sensor";
     services := [sample_motion_node; sample_battery_node] |}.

Definition sample_motion_service : MiotService :=
  {| node := sample_motion_node; spec := sample_motion_spec |}.

Definition sample_magnet_node : MiotNode :=
  {| srv_name := "magnet_sensor";
     properties := [sample_property "magnet_sensor" "contact_state"];
     srv_mapping := [("magnet_sensor.contact_state", (2, 1))] |}.

Definition sample_magnet_service : MiotService :=
  {| node := sample_magnet_node;
     spec := {| spec_name := "magnet_sensor"; services := [sample_magnet_node] |} |}.

Definition sample_mode : MiotProperty :=
  {| prop_name := "mode"; prop_service := "toilet"; prop_format := "uint8";
     value_list := [(0, "Idle"); (1, "Washing")]; value_range := None |}.

Definition sample_on : MiotProperty :=
  {| prop_name := "on"; prop_service := "toilet"; prop_format := "bool";
     value_list := []; value_range := None |}.

Definition sample_heat_level : MiotProperty :=
  {| prop_name := "heat_level"; prop_service := "seat"; prop_format := "uint8";
     value_list := []; value_range := Some (0, 3, 1) |}.

Definition sample_toilet_node : MiotNode :=
  {| srv_name := "toilet";
     properties := [sample_on; sample_mode; sample_property "toilet" "status"];
     srv_mapping := [("toilet.on", (2, 1)); ("toilet.mode", (2, 2))] |}.

Definition sample_seat_node : MiotNode :=
  {| srv_name := "seat";
     properties := [sample_heat_level];
     srv_mapping := [("seat.heat_level", (3, 1))] |}.

Definition sample_toilet_service : MiotService :=
  {| node := sample_toilet_node;
     spec := {| spec_name := "toilet";
                services := [sample_toilet_node; sample_seat_node] |} |}.

Definition sample_config : Config :=
  {| conf_miot_did := Some "blt.3.abc"; conf_model := Some "lumi.sensor_motion.v2";
     conf_miot_type := Some "urn:miot-spec-v2:device:motion-sensor:0000A014:lumi-v2:1" |}.

(** A base-class constructor for the samples: an available entity with a
    cloud client, no custom configuration and both helper domains
    registered. *)
Definition sample_base (srv : MiotService) (config : Config)
    (kw : option (list (string * (Z * Z)))) : Entity :=
  {| cls := MiotBinarySensorEntity; _miot_service := srv; _prop_state := None;
     _prop_illumination := None; _prop_power := get_property srv ["on"];
     _state := PNone; _state_attrs := ∅; _device_class := None;
     _available := true; _subs := ∅; _add_entities := ["fan"; "switch"];
     miot_did := conf_miot_did config; miot_cloud := true;
     custom_config_bool := fun _ => None;
     custom_config_integer := fun _ => None |}.

(** The same with a configured [motion_timeout]. *)
Definition sample_base_timeout (d : Z) (srv : MiotService) (config : Config)
    (kw : option (list (string * (Z * Z)))) : Entity :=
  {| cls := MiotBinarySensorEntity; _miot_service := srv; _prop_state := None;
     _prop_illumination := None; _prop_power := get_property srv ["on"];
     _state := PNone; _state_attrs := ∅; _device_class := None;
     _available := true; _subs := ∅; _add_entities := ["fan"; "switch"];
     miot_did := conf_miot_did config; miot_cloud := true;
     custom_config_bool := fun _ => None;
     custom_config_integer :=
       fun k => if String.eqb k "motion_timeout" then Some d else None |}.

(** The same with no helper domain registered. *)
Definition sample_base_alone (srv : MiotService) (config : Config)
    (kw : option (list (string * (Z * Z)))) : Entity :=
  {| cls := MiotBinarySensorEntity; _miot_service := srv; _prop_state := None;
     _prop_illumination := None; _prop_power := get_property srv ["on"];
     _state := PNone; _state_attrs := ∅; _device_class := None;
     _available := true; _subs := ∅; _add_entities := [];
     miot_did := conf_miot_did config; miot_cloud := true;
     custom_config_bool := fun _ => None;
     custom_config_integer := fun _ => None |}.

Definition sample_registry (miot : string) : MiotSpec := sample_motion_spec.

(** The entity [MiotBinarySensorEntity.__init__] builds for the sample
    motion sensor. *)
Definition sample_motion_entity : Entity :=
  with_state_attrs {[ "state_property" := PStr "motion_sensor.no_motion_duration" ]}
    (with_device_class (Some DEVICE_CLASS_MOTION)
       (with_prop_state (Some sample_duration)
          (sample_base sample_motion_service sample_config None))).

(** An entity watching [sample_duration], last reported as [v]. *)
Definition sample_duration_entity (v : pyval) : Entity :=
  with_state_attrs {[ full_name sample_duration := v ]}
    (with_prop_state (Some sample_duration)
       (sample_base sample_motion_service sample_config None)).

Definition sample_lumi_motion : Entity :=
  with_cls LumiBinarySensorEntity sample_motion_entity.

Definition sample_lumi_magnet : Entity :=
  with_cls LumiBinarySensorEntity
    (with_prop_state (Some (sample_property "magnet_sensor" "contact_state"))
       (sample_base sample_magnet_service sample_config None)).

Definition sample_ble_motion : Entity :=
  with_cls BleBinarySensorEntity sample_motion_entity.

Definition sample_ble_motion_timeout0 : Entity :=
  with_cls BleBinarySensorEntity
    (with_prop_state (Some sample_duration)
       (sample_base_timeout 0 sample_motion_service sample_config None)).

Definition sample_toilet : Entity :=
  with_cls MiotToiletEntity (sample_base sample_toilet_service sample_config None).

Definition sample_toilet_alone : Entity :=
  with_cls MiotToiletEntity
    (sample_base_alone sample_toilet_service sample_config None).

(** The double quote, for writing JSON texts. *)
Definition dq : string := String (ascii_of_nat 34) EmptyString.

(** The text of a motion event at 1700000000 with payload [0100]. *)
Definition sample_event_text : string :=
  "{" +:+ dq +:+ "timestamp" +:+ dq +:+ ":1700000000,"
      +:+ dq +:+ "value" +:+ dq +:+ ":[" +:+ dq +:+ "0100" +:+ dq +:+ "]}".

(** The text of a device log whose last entry is a door opening. *)
Definition sample_log_text : string :=
  "[1700000000,[" +:+ dq +:+ "event.open" +:+ dq +:+ ",[]]]".

(** A library for the samples: it decodes the two texts above, prints the
    one timestamp they carry and parses no number text. *)
Definition sample_py : PyLib :=
  {| json_loads := fun s =>
       if String.eqb s sample_event_text then
         Some (PDict [("timestamp", PInt 1700000000);
                      ("value", PList [PStr "0100"])])
       else if String.eqb s sample_log_text then
         Some (PList [PInt 1700000000; PList [PStr "event.open"; PList []]])
       else None;
     fromtimestamp := fun t =>
       if t =? 1700000000 then Some "2023-11-14 22:13:20" else None;
     float_of_str := fun _ => None;
     int_of_str := fun _ => None |}.

(** Cloud answers for the sample BLE device. *)
Definition sample_ble_answer (props : list (string * pyval)) : pyval :=
  PDict [("code", PInt 0); ("result", PDict [("blt.3.abc", PDict props)])].

Definition sample_props_motion : list (string * pyval) :=
  [("event.15", PStr sample_event_text); ("prop.4106", PStr "64");
   ("prop.4121", PNone)].

Definition sample_props_motion_magnet : list (string * pyval) :=
  [("event.15", PStr sample_event_text); ("prop.4121", PStr "01")].

Definition sample_props_battery : list (string * pyval) :=
  [("event.15", PNone); ("prop.4106", PStr "64"); ("prop.4121", PNone)].

(** A base-class helper for the samples: it leaves the entity as it is. *)
Definition sample_update_sub_entities (properties services : list string)
    (domain : string) (self : Entity) : Entity := self.


(** ** Further parts of the module *)

(** [BleBinarySensorEntity.async_update], from the point where the update
    of the base class has returned; [rdt] is the cloud answer, asked for
    only when [use_ble_object] is configured. *)
Definition BleBinarySensorEntity_async_update (py : PyLib) (now : Z)
    (rdt : pyval) (self : Entity) : option Entity :=
  if negb (_available self) then Some self
  else if opt_true (custom_config_bool self "use_ble_object")
  then async_update_ble_data py now rdt self
  else Some self.

(** [MiotBinarySensorEntity.device_class]; [inherited] is the answer of
    the base classes. *)
Definition device_class (inherited : option string) (self : Entity)
  : option string :=
  match _device_class self with
  | Some d => if String.eqb d "" then inherited else Some d
  | None => inherited
  end.

(** The first property of a service, when it has a name. *)
Definition first_named_property (srv : MiotService) : option MiotProperty :=
  match properties (node srv) with
  | p :: _ => if String.eqb (prop_name p) "" then None else Some p
  | [] => None
  end.

(** The illumination property of the spec's [illumination_sensor] service. *)
Definition illumination_sensor_property (sp : MiotSpec) : option MiotProperty :=
  match get_service sp ["illumination_sensor"] with
  | Some srv => get_property srv ["illumination"]
  | None => None
  end.

(** Two entities differ in their stored state and attributes at most. *)
Definition same_but_state (e e' : Entity) : Prop :=
  e' = with_state_attrs (_state_attrs e') (with_state (_state e') e).

(** The names under which the loop of the toilet update keeps fans. *)
Definition fan_names (pls : list (MiotProperty * MiotService)) : list string :=
  (fun ps => prop_name ps.1) <$> List.filter (fun ps => has_values ps.1) pls.

(** ** More sample devices *)

Definition sample_contact : MiotProperty :=
  sample_property "magnet_sensor" "contact_state".

(** The entity [MiotBinarySensorEntity.__init__] builds for the sample
    door sensor. *)
Definition sample_magnet_entity : Entity :=
  with_state_attrs {[ "state_property" := PStr "magnet_sensor.contact_state" ]}
    (with_device_class (Some DEVICE_CLASS_DOOR)
       (with_prop_state (Some sample_contact)
          (sample_base sample_magnet_service sample_config None))).

(** A motion sensor service without any property. *)
Definition sample_bare_node : MiotNode :=
  {| srv_name := "motion_sensor"; properties := [];
     srv_mapping := [("motion_sensor.motion", (2, 1))] |}.

Definition sample_bare_spec : MiotSpec :=
  {| spec_name := "motion_sensor"; services := [sample_bare_node] |}.

Definition sample_bare_service : MiotService :=
  {| node := sample_bare_node; spec := sample_bare_spec |}.

(** An entity watching the contact state, last reported as [v], with
    [reverse_state] configured as [rev]. *)
Definition sample_contact_entity (rev : option bool) (v : pyval) : Entity :=
  {| cls := MiotBinarySensorEntity; _miot_service := sample_magnet_service;
     _prop_state := Some sample_contact; _prop_illumination := None;
     _prop_power := None; _state := PNone;
     _state_attrs := {[ full_name sample_contact := v ]};
     _device_class := Some DEVICE_CLASS_DOOR;
     _available := true; _subs := ∅; _add_entities := [];
     miot_did := Some "lumi.158d0001"; miot_cloud := true;
     custom_config_bool :=
       fun k => if String.eqb k "reverse_state" then rev else None;
     custom_config_integer := fun _ => None |}.

Definition sample_props_magnet : list (string * pyval) :=
  [("prop.4106", PStr "5a"); ("prop.4121", PStr "02")].

(** The text of a device log whose last entry is a motion. *)
Definition sample_motion_log_text : string :=
  "[1700000000,[" +:+ dq +:+ "event.motion" +:+ dq +:+ ",[]]]".

(** A library that decodes the motion log as well. *)
Definition sample_py2 : PyLib :=
  {| json_loads := fun s =>
       if String.eqb s sample_motion_log_text then
         Some (PList [PInt 1700000000; PList [PStr "event.motion"; PList []]])
       else json_loads sample_py s;
     fromtimestamp := fromtimestamp sample_py;
     float_of_str := float_of_str sample_py;
     int_of_str := int_of_str sample_py |}.

(** ** Hexadecimal texts of BLE object values *)

(** The lower-case hexadecimal digit of a number from 0 to 15. *)
Definition hexdigit (d : Z) : ascii :=
  ascii_of_nat (Z.to_nat (if d <? 10 then 48 + d else 87 + d)).

(** The text of a list of bytes, two digits per byte. *)
Fixpoint hex_of_bytes (bs : list Z) : string :=
  match bs with
  | [] => EmptyString
  | b :: rest => String (hexdigit (b / 16)) (String (hexdigit (b mod 16))
                                                    (hex_of_bytes rest))
  end.

(** The [w] bytes of [n], least significant first. *)
Fixpoint to_bytes_little (w : nat) (n : Z) : list Z :=
  match w with
  | O => []
  | S w' => n mod 256 :: to_bytes_little w' (n / 256)
  end.

(** The text a device sends for the number [n] held in [w] bytes: the
    bytes least significant first, two hexadecimal digits each. *)
Definition hex_little (w : nat) (n : Z) : string :=
  hex_of_bytes (to_bytes_little w n).
(** ** The state logic *)

Lemma in_strs_cons (x a : string) (l : list string) :
  in_strs x (a :: l) = String.eqb x a || in_strs x l.
Proof. reflexivity. Qed.

Lemma in_strs_single (x a : string) : in_strs x [a] = String.eqb x a.
Proof. unfold in_strs; simpl. apply orb_false_r. Qed.

(** X26: for [MiotBinarySensorEntity] and the three classes that inherit
    its [state] ([BleBinarySensorEntity], [MiotToiletEntity],
    [LumiBinarySensorEntity]), the state is the unknown state exactly when
    [is_on] is [None], the on state exactly when [is_on] is a truthy value,
    the off state exactly when it is some other value; it is never
    anything else.  [MiotBinarySensorSubEntity] takes its state from base
    classes outside this module and is not covered. *)
Theorem state_follows_is_on (self : Entity) (iso : pyval) :
  is_on self = Some iso ->
  (state self = Some STATE_UNKNOWN <-> iso = PNone)
  /\ (state self = Some STATE_ON <-> iso <> PNone /\ truthy iso = true)
  /\ (state self = Some STATE_OFF <-> iso <> PNone /\ truthy iso = false)
  /\ (state self = Some STATE_UNKNOWN \/ state self = Some STATE_ON
      \/ state self = Some STATE_OFF).
Proof.
  intros Hiso. unfold state. rewrite Hiso. simpl.
  destruct iso as [ | b | z | s | l | d ]; simpl;
    try (destruct b); try (destruct (z =? 0)); try (destruct (String.eqb s ""));
    try (destruct l); try (destruct d); simpl;
    unfold STATE_UNKNOWN, STATE_ON, STATE_OFF;
    repeat split; intros; try discriminate; try tauto;
    try (destruct H; congruence); auto.
Qed.

Lemma state_follows_is_on_witness :
  is_on (sample_duration_entity (PInt 30)) = Some (PBool true)
  /\ state (sample_duration_entity (PInt 30)) = Some STATE_ON.
Proof.
  split; [vm_compute; reflexivity|].
  apply (state_follows_is_on (sample_duration_entity (PInt 30)) (PBool true));
    [vm_compute; reflexivity|].
  split; [discriminate | reflexivity].
Defined.

(** C2: for a state property named [no_motion_duration] or [nobody_time]
    with a current numeric value [v], and [reverse_state] not set, [is_on]
    is the truth of [v <= d], [d] being the configured [motion_timeout],
    else the range minimum plus the range step when the step is at least
    10, else 60. *)
Theorem is_on_duration (self : Entity) (p : MiotProperty) (v : Z) :
  _prop_state self = Some p ->
  prop_name p = "no_motion_duration" \/ prop_name p = "nobody_time" ->
  from_dict p (_state_attrs self) <> PNone ->
  py_num (from_dict p (_state_attrs self)) = Some v ->
  opt_true (custom_config_bool self "reverse_state") = false ->
  is_on self = Some (PBool (v <=? duration_threshold self p)).
Proof.
  intros Hp Hname Hnn Hv Hrev.
  unfold is_on. rewrite Hp.
  assert (Hin : in_strs (prop_name p) ["no_motion_duration"; "nobody_time"] = true).
  { rewrite in_strs_cons. apply orb_true_iff.
    destruct Hname as [-> | ->]; [left | right]; reflexivity. }
  destruct (from_dict p (_state_attrs self)) as [ | b | z | s | l | d ] eqn:Hval;
    try congruence; try discriminate Hv;
    rewrite Hrev, Hin; unfold duration_threshold, range_step, range_min, py_le_int;
    destruct (custom_config_integer self "motion_timeout") as [dur|];
    destruct (value_range p) as [[[mn mx] stp]|]; simpl in *;
    try (destruct (10 <=? stp)); simpl;
    injection Hv as <-; reflexivity.
Qed.

Lemma is_on_duration_witness :
  is_on (sample_duration_entity (PInt 30)) = Some (PBool true)
  /\ is_on (sample_duration_entity (PInt 200)) = Some (PBool false).
Proof.
  split.
  - assert (H := is_on_duration (sample_duration_entity (PInt 30))
                   sample_duration 30).
    apply H; [reflexivity | left; reflexivity | vm_compute; discriminate
             | vm_compute; reflexivity | reflexivity].
  - assert (H := is_on_duration (sample_duration_entity (PInt 200))
                   sample_duration 200).
    apply H; [reflexivity | left; reflexivity | vm_compute; discriminate
             | vm_compute; reflexivity | reflexivity].
Defined.

(** ** Constructors and setup *)

Lemma get_property_two (srv : MiotService) (a b : string) :
  get_property srv [a; b]
  = first_some (get_property srv [a]) (get_property srv [b]).
Proof.
  simpl. destruct (find _ (properties (node srv))); reflexivity.
Qed.




Section SetupFacts.

Variable init : MiotService -> Config -> option (list (string * (Z * Z))) -> Entity.





(** The loop appends, in order, one entity for each service that is not
    passed over, and fails exactly when a constructor does. *)
Lemma setup_services_spec config did model sp srvs :
  forall acc es,
    setup_services init config did model sp srvs acc = Some es <->
    exists es',
      es = (acc ++ es')%list
      /\ Forall2 (fun srv e => new_entity init config did model sp srv = Some e)
           (List.filter (fun srv => negb (skipped model sp srv)) srvs) es'.
Proof.
  induction srvs as [|srv rest IH]; intros acc es; simpl.
  - split.
    + intros [= <-]. exists []. rewrite app_nil_r. split; [reflexivity|constructor].
    + intros (es' & -> & HF). inversion HF. now rewrite app_nil_r.
  - destruct (skipped model sp srv); simpl.
    + apply IH.
    + destruct (new_entity init config did model sp srv) as [e|] eqn:He; simpl.
      * rewrite IH. split.
        -- intros (es' & -> & HF). exists (e :: es'). rewrite <- app_assoc.
           split; [reflexivity|]. constructor; assumption.
        -- intros (es' & -> & HF). inversion HF as [|? e' ? es'' He' HF']; subst.
           rewrite He in He'. injection He' as <-.
           exists es''. rewrite <- app_assoc. split; [reflexivity|assumption].
      * split; [discriminate|].
        intros (es' & _ & HF). inversion HF as [|? e' ? es'' He' HF']; subst.
        rewrite He in He'. discriminate.
Qed.

End SetupFacts.

Lemma skipped_selected (model : string) (sp : MiotSpec) (n : MiotNode) :
  in_strs (srv_name n)
    ["toilet"; "seat"; "motion_sensor"; "magnet_sensor"; "submersion_sensor"] = true ->
  negb (skipped model sp {| node := n; spec := sp |}) = selected model sp n.
Proof.
  intros Hin. unfold selected, skipped, mapping. rewrite Hin. cbn [node andb].
  rewrite in_strs_single.
  destruct (is_some (get_service sp ["nobody_time"]));
    destruct (String.eqb model "lumi.sensor_wleak.aq1");
    destruct (srv_mapping n); reflexivity.
Qed.

Lemma selected_services (model : string) (sp : MiotSpec) (l : list MiotNode) :
  List.filter (fun srv => negb (skipped model sp srv))
    ((fun n => {| node := n; spec := sp |})
       <$> filter (fun n => in_strs (srv_name n)
                     ["toilet"; "seat"; "motion_sensor"; "magnet_sensor";
                      "submersion_sensor"] = true) l)
  = (fun n => {| node := n; spec := sp |}) <$> List.filter (selected model sp) l.
Proof.
  induction l as [|n l IH]; [reflexivity|].
  rewrite filter_cons. cbn [List.filter].
  destruct (decide (in_strs (srv_name n) _ = true)) as [Hin|Hin].
  - rewrite fmap_cons. cbn [List.filter].
    rewrite (skipped_selected model sp n Hin).
    destruct (selected model sp n); [rewrite fmap_cons|]; rewrite IH; reflexivity.
  - apply not_true_is_false in Hin. unfold selected at 1. rewrite Hin.
    cbn [andb]. exact IH.
Qed.

(** C7: entities are built exactly for the services of the spec named
    [toilet], [seat], [motion_sensor], [magnet_sensor] or
    [submersion_sensor] whose mapping is not empty, or any of those when
    the spec has a [nobody_time] service or the model is
    [lumi.sensor_wleak.aq1]: one entity for each, in spec order. *)
Theorem setup_selected_services
    (init : MiotService -> Config -> option (list (string * (Z * Z))) -> Entity)
    (from_type : string -> MiotSpec) (config : Config) (miot : string)
    (es : list Entity) :
  conf_miot_type config = Some miot ->
  miot <> "" ->
  async_setup_platform init from_type config = Some es ->
  Forall2
    (fun n e =>
       new_entity init config (str_or_empty (conf_miot_did config))
         (str_or_empty (conf_model config)) (from_type miot)
         {| node := n; spec := from_type miot |} = Some e)
    (List.filter (selected (str_or_empty (conf_model config)) (from_type miot))
       (services (from_type miot)))
    es.
Proof.
  intros Htype Hne Hsetup. unfold async_setup_platform in Hsetup.
  rewrite Htype in Hsetup.
  apply String.eqb_neq in Hne. rewrite Hne in Hsetup. cbn [negb] in Hsetup.
  apply setup_services_spec in Hsetup as (es' & -> & HF).
  unfold get_services in HF. rewrite selected_services in HF.
  cbn [app]. apply Forall2_fmap_l in HF. exact HF.
Qed.

Lemma setup_selected_services_witness :
  exists es,
    async_setup_platform sample_base sample_registry sample_config = Some es
    /\ Forall2
         (fun n e =>
            new_entity sample_base sample_config "blt.3.abc" "lumi.sensor_motion.v2"
              sample_motion_spec {| node := n; spec := sample_motion_spec |} = Some e)
         [sample_motion_node] es.
Proof.
  eexists. split; [vm_compute; reflexivity|].
  apply (setup_selected_services sample_base sample_registry sample_config
           "urn:miot-spec-v2:device:motion-sensor:0000A014:lumi-v2:1");
    [reflexivity | discriminate | vm_compute; reflexivity].
Defined.


(** Without a device type the setup builds nothing. *)
Lemma setup_without_type
    (init : MiotService -> Config -> option (list (string * (Z * Z))) -> Entity)
    (from_type : string -> MiotSpec) (config : Config) :
  conf_miot_type config = None \/ conf_miot_type config = Some "" ->
  async_setup_platform init from_type config = Some [].
Proof.
  unfold async_setup_platform. intros [-> | ->]; reflexivity.
Qed.



(** ** The device log of Lumi sensors *)

Lemma py_len_truthy (v : pyval) (n : Z) :
  py_len v = Some n -> 1 <= n -> truthy v = true.
Proof.
  destruct v as [ | b | z | s | l | d ]; simpl; try discriminate;
    intros [= <-] Hn;
    [destruct s | destruct l | destruct d]; simpl in *; try lia; reflexivity.
Qed.

(** C3, as the code has it: when the fetch fails or the log has fewer
    than two entries, the update of an entity whose service is not named
    [motion_sensor] sets the state to [None] and changes nothing else; for
    a [motion_sensor] service the state becomes whether the clock reading
    is at most the motion timeout, and is recorded under the state
    property. *)
Theorem lumi_update_without_log (py : PyLib) (now : Z)
    (fetched : option string) (self : Entity) (pes : pyval) :
  _available self = true ->
  lumi_log py fetched self = Some pes ->
  (truthy pes = false \/ exists n, py_len pes = Some n /\ n < 2) ->
  LumiBinarySensorEntity_async_update py now fetched self
  = Some (lumi_without_log now self)
  /\ (name (_miot_service self) <> "motion_sensor" ->
      lumi_without_log now self = with_state PNone self).
Proof.
  intros Hav Hlog Hshort. split.
  - unfold LumiBinarySensorEntity_async_update, lumi_without_log.
    rewrite Hav, Hlog. cbn [negb mbind option_bind].
    assert (Hn : exists n, (if truthy pes then py_len pes else Some 0) = Some n
                           /\ truthy pes && (2 <=? n) = false).
    { destruct Hshort as [Hf | (n & Hlen & Hlt)].
      - rewrite Hf. exists 0. split; reflexivity.
      - destruct (truthy pes).
        + exists n. split; [exact Hlen|]. apply Z.leb_gt. exact Hlt.
        + exists 0. split; reflexivity. }
    destruct Hn as (n & -> & Hcond). cbn [mbind option_bind]. rewrite Hcond.
    cbn [mbind option_bind py_eq_str orb].
    destruct (in_strs (name (_miot_service self)) ["motion_sensor"]) eqn:Hm.
    + change (_miot_service (with_state PNone self)) with (_miot_service self).
      rewrite Hm. cbn [_prop_state _state with_state].
      destruct (_prop_state self) as [p|].
      * destruct (decide _) as [He|_]; [|reflexivity].
        apply insert_non_empty in He. contradiction.
      * destruct (decide _) as [_|He]; [reflexivity | contradiction].
    + change (_miot_service (with_state PNone self)) with (_miot_service self).
      rewrite Hm. cbn [_prop_state _state with_state].
      destruct (_prop_state self) as [p|];
        (destruct (decide _) as [_|He]; [reflexivity | contradiction]).
  - intros Hne. unfold lumi_without_log. rewrite in_strs_single.
    apply String.eqb_neq in Hne. rewrite Hne. reflexivity.
Qed.

Lemma lumi_update_without_log_witness :
  LumiBinarySensorEntity_async_update sample_py 1700000100 None sample_lumi_magnet
  = Some (with_state PNone sample_lumi_magnet).
Proof.
  destruct (lumi_update_without_log sample_py 1700000100 None sample_lumi_magnet
              (PList []) eq_refl eq_refl (or_introl eq_refl)) as [Hupd Hsame].
  rewrite Hupd, Hsame; [reflexivity | discriminate].
Defined.

(** C3 fails as stated: for the sample motion sensor a failed fetch leaves
    the state off, not unknown. *)
Lemma lumi_motion_without_log_counterexample :
  lumi_log sample_py None sample_lumi_motion = Some (PList [])
  /\ _state <$> LumiBinarySensorEntity_async_update sample_py 1700000100 None
                  sample_lumi_motion
     = Some (PBool false)
  /\ PBool false <> PNone.
Proof.
  split; [reflexivity|]. split; [vm_compute; reflexivity | discriminate].
Qed.

(** C6, as the code has it: for an entity whose service is not named
    [motion_sensor] and a log of at least two entries, a trigger type
    [event.open] or [event.close] sets the state to whether the type is
    [event.open], and a trigger type [event.leak] or [event.no_leak] to
    whether it is [event.leak]. *)
Theorem lumi_update_open_leak (py : PyLib) (now : Z)
    (fetched : option string) (self : Entity) (pes p0 p1 : pyval)
    (typ at_ : string) (n tt : Z) :
  _available self = true ->
  name (_miot_service self) <> "motion_sensor" ->
  lumi_log py fetched self = Some pes ->
  py_len pes = Some n -> 2 <= n ->
  py_item1 pes = Some p1 -> py_item0 p1 = Some (PStr typ) ->
  py_item0 pes = Some p0 -> py_int py (py_or p0 (PInt 0)) = Some tt ->
  fromtimestamp py tt = Some at_ ->
  In typ ["event.open"; "event.close"; "event.leak"; "event.no_leak"] ->
  exists e',
    LumiBinarySensorEntity_async_update py now fetched self = Some e'
    /\ (typ = "event.open" \/ typ = "event.close" ->
        _state e' = PBool (String.eqb typ "event.open"))
    /\ (typ = "event.leak" \/ typ = "event.no_leak" ->
        _state e' = PBool (String.eqb typ "event.leak")).
Proof.
  intros Hav Hne Hlog Hlen Hn H1 Htyp H0 Htt Hat Hin.
  unfold LumiBinarySensorEntity_async_update.
  rewrite Hav, Hlog. cbn [negb mbind option_bind].
  rewrite (py_len_truthy pes n Hlen ltac:(lia)), Hlen.
  cbn [mbind option_bind andb].
  apply Z.leb_le in Hn. rewrite Hn.
  rewrite H1. cbn [mbind option_bind]. rewrite Htyp. cbn [mbind option_bind].
  rewrite H0. cbn [mbind option_bind]. rewrite Htt. cbn [mbind option_bind].
  rewrite Hat. cbn [mbind option_bind].
  apply String.eqb_neq in Hne.
  assert (Hm : in_strs (name (_miot_service (with_state PNone self)))
                 ["motion_sensor"] = false).
  { rewrite in_strs_single. exact Hne. }
  simpl in Hin.
  destruct Hin as [<- | [<- | [<- | [<- | []]]]];
    cbn [py_eq_str String.eqb Ascii.eqb Bool.eqb andb orb mbind option_bind];
    rewrite Hm; cbn [orb];
    eexists; (split; [reflexivity|]);
    (split; intros [Ht | Ht]; try discriminate Ht);
    destruct (_prop_state self); cbn;
    destruct (decide (_ = ∅)); reflexivity.
Qed.

Lemma lumi_update_open_leak_witness :
  _state <$> LumiBinarySensorEntity_async_update sample_py 1700001000
               (Some sample_log_text) sample_lumi_magnet
  = Some (PBool true).
Proof.
  destruct (lumi_update_open_leak sample_py 1700001000 (Some sample_log_text)
              sample_lumi_magnet
              (PList [PInt 1700000000; PList [PStr "event.open"; PList []]])
              (PInt 1700000000) (PList [PStr "event.open"; PList []])
              "event.open" "2023-11-14 22:13:20" 2 1700000000)
    as (e' & Hupd & Hopen & _);
    [reflexivity | discriminate | reflexivity | reflexivity | lia | reflexivity
    | reflexivity | reflexivity | reflexivity | reflexivity | left; reflexivity |].
  rewrite Hupd. cbn [fmap option_fmap option_map]. f_equal.
  apply Hopen. left; reflexivity.
Defined.

(** C6 fails as stated: for the sample motion sensor a log whose trigger
    is a door opening older than the timeout leaves the state off. *)
Lemma lumi_motion_open_counterexample :
  lumi_log sample_py (Some sample_log_text) sample_lumi_motion
  = Some (PList [PInt 1700000000; PList [PStr "event.open"; PList []]])
  /\ _state <$> LumiBinarySensorEntity_async_update sample_py 1700001000
                  (Some sample_log_text) sample_lumi_motion
     = Some (PBool false)
  /\ PBool false <> PBool (String.eqb "event.open" "event.open").
Proof.
  split; [reflexivity|]. split; [vm_compute; reflexivity | discriminate].
Qed.

(** ** BLE objects *)

Lemma has_dot_append (a b : string) : has_dot (a +:+ "." +:+ b) = true.
Proof.
  induction a as [|c a IH]; [reflexivity|].
  simpl. rewrite IH. apply orb_true_r.
Qed.

Lemma full_name_ne (p : MiotProperty) (k : string) :
  has_dot k = false -> full_name p <> k.
Proof.
  intros Hk Heq. unfold full_name in Heq. rewrite <- Heq in Hk.
  rewrite has_dot_append in Hk. discriminate.
Qed.

Lemma in_strs_false_ne (k a : string) (l : list string) :
  in_strs k l = false -> In a l -> a <> k.
Proof.
  intros Hk Ha ->. unfold in_strs in Hk.
  assert (existsb (String.eqb k) l = true); [|congruence].
  apply existsb_exists. exists k. split; [exact Ha | apply String.eqb_refl].
Qed.

Section BleFacts.

Variable py : PyLib.
Variable now : Z.
Variable self : Entity.

Lemma set_value_other (vlk k0 : string) (val : pyval) (adt : gmap string pyval) :
  vlk <> k0 -> set_value vlk val adt !! k0 = adt !! k0.
Proof.
  intros Hne. unfold set_value. destruct (is_None val); [reflexivity|].
  apply lookup_insert_ne. exact Hne.
Qed.

Lemma illumination_key_ne (k0 : string) :
  has_dot k0 = false -> in_strs k0 ble_plain_keys = false ->
  illumination_key self <> k0.
Proof.
  intros Hdot Hplain. unfold illumination_key.
  destruct (_prop_illumination self) as [p|];
    [destruct (is_some (value_range p)); [now apply full_name_ne|]|];
    (eapply in_strs_false_ne; [exact Hplain | simpl; tauto]).
Qed.

Lemma ble_object_event (v : pyval) (ise : bool) (tim : Z) (val : pyval) :
  ble_object py "event.15" v = Some (ise, tim, val) ->
  ise = true /\ event_time py v = Some tim.
Proof.
  unfold ble_object, event_time.
  change (contains "event." "event.15") with true. cbv zeta iota.
  destruct v as [ | b | z | s | l | d ]; try discriminate.
  destruct (loads py s) as [evt|]; [|discriminate]. cbn [mbind option_bind].
  destruct (dict_get evt "timestamp" PNone) as [ts|]; [|discriminate].
  cbn [mbind option_bind].
  destruct (py_float py (py_or ts (PInt 0))) as [t|]; [|discriminate].
  cbn [mbind option_bind].
  destruct (dict_get evt "value" PNone) as [vls|]; [|discriminate].
  cbn [mbind option_bind].
  destruct (if truthy vls then py_item0 vls else Some PNone); [|discriminate].
  cbn [mbind option_bind]. intros [= <- <- <-]. split; reflexivity.
Qed.

(** The motion event sets the state and the two trigger attributes. *)
Lemma ble_step_event (v : pyval) (t : Z) (sta sta' : option bool)
    (adt adt' : gmap string pyval) :
  event_time py v = Some t -> t <> 0 ->
  ble_step py now self "event.15" v sta adt = Some (sta', adt') ->
  sta' = Some (now - t <=? motion_timeout_or_60 self)
  /\ adt' !! "trigger_time" = Some (PInt t)
  /\ exists at_, fromtimestamp py t = Some at_
                 /\ adt' !! "trigger_at" = Some (PStr at_).
Proof.
  intros Ht Hnz. unfold ble_step.
  destruct (is_None v) eqn:Hv.
  { destruct v; try discriminate Hv. discriminate Ht. }
  destruct (ble_object py "event.15" v) as [[[ise tim] val]|] eqn:Hobj;
    [|discriminate].
  apply ble_object_event in Hobj as [-> Htim].
  rewrite Ht in Htim. injection Htim as <-.
  cbn [mbind option_bind andb].
  apply Z.eqb_neq in Hnz. rewrite Hnz.
  change (String.eqb "event.15" "event.15") with true. cbv iota.
  destruct (fromtimestamp py t) as [at_|]; [|discriminate].
  cbn [mbind option_bind]. intros [= <- <-].
  split; [reflexivity|].
  split.
  - rewrite set_value_other by (apply illumination_key_ne; reflexivity).
    rewrite lookup_insert_ne by discriminate. apply lookup_insert_eq.
  - exists at_. split; [reflexivity|].
    rewrite set_value_other by (apply illumination_key_ne; reflexivity).
    apply lookup_insert_eq.
Qed.

(** A motion event without a timestamp changes nothing. *)
Lemma ble_step_event_zero (v : pyval) (sta sta' : option bool)
    (adt adt' : gmap string pyval) :
  (forall t, event_time py v = Some t -> t = 0) ->
  ble_step py now self "event.15" v sta adt = Some (sta', adt') ->
  sta' = sta /\ adt' = adt.
Proof.
  intros Hz. unfold ble_step.
  destruct (is_None v); [intros [= <- <-]; split; reflexivity|].
  destruct (ble_object py "event.15" v) as [[[ise tim] val]|] eqn:Hobj;
    [|discriminate].
  apply ble_object_event in Hobj as [-> Htim].
  rewrite (Hz tim Htim). cbn [mbind option_bind andb Z.eqb].
  intros [= <- <-]. split; reflexivity.
Qed.

(** The other objects leave alone every plain attribute that is not
    theirs, and only a magnet value touches the state. *)
Lemma ble_step_other (k : string) (v : pyval) (sta sta' : option bool)
    (adt adt' : gmap string pyval) :
  k <> "event.15" ->
  ble_step py now self k v sta adt = Some (sta', adt') ->
  (forall k0, has_dot k0 = false -> in_strs k0 ble_plain_keys = false ->
              adt' !! k0 = adt !! k0)
  /\ ((k = "prop.4121" -> v = PNone) -> sta' = sta).
Proof.
  intros Hk. unfold ble_step.
  destruct (is_None v) eqn:Hv; [intros [= <- <-]; split; auto|].
  destruct (ble_object py k v) as [[[ise tim] val]|]; [|discriminate].
  cbn [mbind option_bind].
  destruct (ise && (tim =? 0)); [intros [= <- <-]; split; auto|].
  apply String.eqb_neq in Hk. rewrite Hk.
  destruct (String.eqb k "prop.4103").
  { intros [= <- <-]. split; [|auto]. intros k0 Hdot Hplain.
    apply set_value_other. now apply illumination_key_ne. }
  destruct (String.eqb k "prop.4119").
  { destruct (get_property (_miot_service self) ["no_motion_duration"]);
      intros [= <- <-]; (split; [|auto]); intros k0 Hdot Hplain;
      apply set_value_other; [now apply full_name_ne|].
    eapply in_strs_false_ne; [exact Hplain | simpl; tauto]. }
  destruct (String.eqb k "prop.4120").
  { intros [= <- <-]. split; [|auto]. intros k0 Hdot Hplain.
    rewrite lookup_insert_ne
      by (eapply in_strs_false_ne; [exact Hplain | simpl; tauto]).
    assert (Hls : (<["light_strong" := PBool (truthy val)]> adt) !! k0 = adt !! k0).
    { apply lookup_insert_ne.
      eapply in_strs_false_ne; [exact Hplain | simpl; tauto]. }
    destruct (_prop_illumination self) as [p|]; [|exact Hls].
    destruct (value_list p); [exact Hls|].
    destruct (list_value p _); [|exact Hls].
    rewrite lookup_insert_ne by (now apply full_name_ne). exact Hls. }
  destruct (String.eqb k "prop.4121") eqn:H4121.
  { intros [= <- <-]. split; [auto|]. intros Hnone.
    apply String.eqb_eq in H4121. rewrite (Hnone H4121) in Hv. discriminate. }
  intros [= <- <-]. split; auto.
Qed.

Lemma ble_loop_app (l1 l2 : list (string * pyval)) :
  forall sta adt,
    ble_loop py now self (l1 ++ l2) sta adt
    = '(sta1, adt1) ← ble_loop py now self l1 sta adt;
      ble_loop py now self l2 sta1 adt1.
Proof.
  induction l1 as [|[k v] l1 IH]; intros sta adt; [reflexivity|].
  cbn [app ble_loop].
  destruct (ble_step py now self k v sta adt) as [[sta1 adt1]|]; [|reflexivity].
  cbn [mbind option_bind]. apply IH.
Qed.

(** Entries after the motion event that are neither a motion event nor a
    magnet value keep the state and the trigger attributes. *)
Lemma ble_loop_after (items : list (string * pyval)) :
  (forall v, ~ In ("event.15", v) items) ->
  (forall v, In ("prop.4121", v) items -> v = PNone) ->
  forall sta adt sta' adt',
    ble_loop py now self items sta adt = Some (sta', adt') ->
    sta' = sta
    /\ forall k0, has_dot k0 = false -> in_strs k0 ble_plain_keys = false ->
                  adt' !! k0 = adt !! k0.
Proof.
  induction items as [|[k v] items IH]; intros H15 H4121 sta adt sta' adt'.
  - intros [= <- <-]. split; auto.
  - cbn [ble_loop].
    destruct (ble_step py now self k v sta adt) as [[sta1 adt1]|] eqn:Hstep;
      [|discriminate].
    cbn [mbind option_bind]. intros Hloop.
    assert (Hk : k <> "event.15").
    { intros ->. apply (H15 v). left; reflexivity. }
    destruct (ble_step_other k v sta sta1 adt adt1 Hk Hstep) as [Hadt Hsta].
    apply IH in Hloop as [-> Hrest].
    + split.
      * apply Hsta. intros ->. apply H4121. left; reflexivity.
      * intros k0 Hdot Hplain. rewrite Hrest by assumption. now apply Hadt.
    + intros v' Hin. apply (H15 v'). right; exact Hin.
    + intros v' Hin. apply H4121. right; exact Hin.
Qed.

(** Without a motion event that carries a timestamp and without a magnet
    value the loop keeps [sta]. *)
Lemma ble_loop_frame (items : list (string * pyval)) :
  (forall v t, In ("event.15", v) items -> event_time py v = Some t -> t = 0) ->
  (forall v, In ("prop.4121", v) items -> v = PNone) ->
  forall sta adt sta' adt',
    ble_loop py now self items sta adt = Some (sta', adt') -> sta' = sta.
Proof.
  induction items as [|[k v] items IH]; intros H15 H4121 sta adt sta' adt'.
  - intros [= <- <-]. reflexivity.
  - cbn [ble_loop].
    destruct (ble_step py now self k v sta adt) as [[sta1 adt1]|] eqn:Hstep;
      [|discriminate].
    cbn [mbind option_bind]. intros Hloop.
    apply IH in Hloop as ->.
    + destruct (String.eqb k "event.15") eqn:Hk.
      * apply String.eqb_eq in Hk. subst k.
        apply ble_step_event_zero in Hstep as [-> _]; [reflexivity|].
        intros t. apply H15. left; reflexivity.
      * apply String.eqb_neq in Hk.
        destruct (ble_step_other k v sta sta1 adt adt1 Hk Hstep) as [_ Hsta].
        apply Hsta. intros ->. apply H4121. left; reflexivity.
    + intros v' t Hin. apply (H15 v' t). right; exact Hin.
    + intros v' Hin. apply H4121. right; exact Hin.
Qed.

End BleFacts.

Lemma update_attrs_empty (self : Entity) : update_attrs ∅ self = self.
Proof.
  unfold update_attrs. rewrite (left_id_L ∅ (∪)). destruct self; reflexivity.
Qed.

(** C5, as the code has it: when the payload has an [event.15] entry with
    a timestamp [t] other than zero, no second [event.15] entry and no
    magnet value after it, the state becomes whether the clock reading
    minus [t] is at most the configured [motion_timeout], 60 standing in
    for a timeout that is unset or zero; [trigger_time] and [trigger_at]
    record [t] and its printed form. *)
Theorem ble_motion_event (py : PyLib) (now : Z) (rdt : pyval)
    (self : Entity) (did : string) (l1 l2 : list (string * pyval))
    (v : pyval) (t : Z) (e' : Entity) :
  miot_did self = Some did -> did <> "" -> miot_cloud self = true ->
  ble_props rdt did = Some (l1 ++ ("event.15", v) :: l2)%list ->
  event_time py v = Some t -> t <> 0 ->
  (forall v', ~ In ("event.15", v') l2) ->
  (forall v', In ("prop.4121", v') l2 -> v' = PNone) ->
  async_update_ble_data py now rdt self = Some e' ->
  _state e' = PBool (now - t <=? motion_timeout_or_60 self)
  /\ _state_attrs e' !! "trigger_time" = Some (PInt t)
  /\ exists at_, fromtimestamp py t = Some at_
                 /\ _state_attrs e' !! "trigger_at" = Some (PStr at_).
Proof.
  intros Hdid Hne Hcloud Hprops Ht Hnz H15 H4121.
  unfold async_update_ble_data. rewrite Hdid, Hcloud.
  apply String.eqb_neq in Hne. rewrite Hne. cbn [negb andb].
  rewrite Hprops. cbn [mbind option_bind].
  rewrite ble_loop_app.
  destruct (ble_loop py now self l1 None ∅) as [[sta1 adt1]|]; [|discriminate].
  cbn [mbind option_bind ble_loop].
  destruct (ble_step py now self "event.15" v sta1 adt1) as [[sta2 adt2]|] eqn:Hstep;
    [|discriminate].
  cbn [mbind option_bind].
  destruct (ble_loop py now self l2 sta2 adt2) as [[sta3 adt3]|] eqn:Hloop;
    [|discriminate].
  cbn [mbind option_bind].
  destruct (ble_step_event py now self v t sta1 sta2 adt1 adt2 Ht Hnz Hstep)
    as (-> & Htime & at_ & Hat & Htat).
  destruct (ble_loop_after py now self l2 H15 H4121 _ _ _ _ Hloop) as [-> Hkeep].
  assert (Htime3 : adt3 !! "trigger_time" = Some (PInt t)).
  { rewrite Hkeep by reflexivity. exact Htime. }
  assert (Htat3 : adt3 !! "trigger_at" = Some (PStr at_)).
  { rewrite Hkeep by reflexivity. exact Htat. }
  destruct (decide (adt3 = ∅)) as [He|_].
  { rewrite He in Htime3. rewrite lookup_empty in Htime3. discriminate. }
  intros [= <-]. cbn [update_attrs with_state_attrs with_state _state _state_attrs].
  split; [reflexivity|]. split.
  - apply lookup_union_Some_l. exact Htime3.
  - exists at_. split; [exact Hat|]. apply lookup_union_Some_l. exact Htat3.
Qed.

Lemma ble_motion_event_witness :
  exists e',
    async_update_ble_data sample_py 1700000030
      (sample_ble_answer sample_props_motion) sample_ble_motion = Some e'
    /\ _state e' = PBool true
    /\ _state_attrs e' !! "trigger_time" = Some (PInt 1700000000).
Proof.
  assert (Hrun : exists e',
             async_update_ble_data sample_py 1700000030
               (sample_ble_answer sample_props_motion) sample_ble_motion = Some e')
    by (eexists; vm_compute; reflexivity).
  destruct Hrun as [e' Hrun]. exists e'. split; [exact Hrun|].
  destruct (ble_motion_event sample_py 1700000030
              (sample_ble_answer sample_props_motion) sample_ble_motion
              "blt.3.abc" [] [("prop.4106", PStr "64"); ("prop.4121", PNone)]
              (PStr sample_event_text) 1700000000 e'
              eq_refl ltac:(discriminate) eq_refl eq_refl eq_refl
              ltac:(discriminate)) as (Hst & Htt & _).
  - intros v' [H | [H | []]]; discriminate H.
  - intros v' [H | [H | []]]; [discriminate H | now injection H].
  - exact Hrun.
  - split; [exact Hst | exact Htt].
Defined.

(** C5 fails as stated: a magnet value after the motion event decides the
    state, and a configured timeout of zero counts as 60. *)
Lemma ble_motion_event_counterexample :
  (event_time sample_py (PStr sample_event_text) = Some 1700000000
   /\ custom_config_integer sample_ble_motion "motion_timeout" = None
   /\ _state <$> async_update_ble_data sample_py 1700001000
                   (sample_ble_answer sample_props_motion_magnet) sample_ble_motion
      = Some (PBool true)
   /\ (1700001000 - 1700000000 <=? 60) = false)
  /\ (custom_config_integer sample_ble_motion_timeout0 "motion_timeout" = Some 0
      /\ _state <$> async_update_ble_data sample_py 1700000030
                      (sample_ble_answer sample_props_motion)
                      sample_ble_motion_timeout0
         = Some (PBool true)
      /\ (1700000030 - 1700000000 <=? 0) = false).
Proof.
  repeat split; vm_compute; reflexivity.
Qed.

(** C10: when the fetched props hold no [event.15] entry with a timestamp
    other than zero and no [prop.4121] entry with a value other than
    [None], the update leaves the stored state as it was; the entity
    changes by a merge into its attributes at most. *)
Theorem ble_state_frame (py : PyLib) (now : Z) (rdt : pyval)
    (self e' : Entity) :
  (forall did items,
      miot_did self = Some did -> ble_props rdt did = Some items ->
      (forall v t, In ("event.15", v) items -> event_time py v = Some t -> t = 0)
      /\ (forall v, In ("prop.4121", v) items -> v = PNone)) ->
  async_update_ble_data py now rdt self = Some e' ->
  _state e' = _state self
  /\ exists adt, e' = update_attrs adt self.
Proof.
  intros Hprops Hupd.
  assert (Hex : exists adt, e' = update_attrs adt self).
  { unfold async_update_ble_data in Hupd.
    destruct (miot_did self) as [did|] eqn:Hdid;
      [|injection Hupd as <-; exists ∅; now rewrite update_attrs_empty].
    destruct (negb (String.eqb did "") && miot_cloud self);
      [|injection Hupd as <-; exists ∅; now rewrite update_attrs_empty].
    destruct (ble_props rdt did) as [items|] eqn:Hitems; [|discriminate].
    cbn [mbind option_bind] in Hupd.
    destruct (ble_loop py now self items None ∅) as [[sta adt]|] eqn:Hloop;
      [|discriminate].
    cbn [mbind option_bind] in Hupd.
    destruct (Hprops did items eq_refl Hitems) as [H15 H4121].
    apply (ble_loop_frame py now self items H15 H4121) in Hloop. subst sta.
    destruct (decide (adt = ∅)); injection Hupd as <-.
    - exists ∅. now rewrite update_attrs_empty.
    - exists adt. reflexivity. }
  split; [|exact Hex].
  destruct Hex as (adt & ->). reflexivity.
Qed.

Lemma ble_state_frame_witness :
  exists e',
    async_update_ble_data sample_py 1700000030
      (sample_ble_answer sample_props_battery) sample_ble_motion = Some e'
    /\ _state e' = _state sample_ble_motion.
Proof.
  assert (Hrun : exists e',
             async_update_ble_data sample_py 1700000030
               (sample_ble_answer sample_props_battery) sample_ble_motion = Some e')
    by (eexists; vm_compute; reflexivity).
  destruct Hrun as [e' Hrun]. exists e'. split; [exact Hrun|].
  refine (proj1 (ble_state_frame sample_py 1700000030
                   (sample_ble_answer sample_props_battery) sample_ble_motion
                   e' _ Hrun)).
  intros did items Hdid Hitems.
  injection Hdid as <-. vm_compute in Hitems. injection Hitems as <-.
  split.
  - intros v t [H | [H | [H | []]]] Ht; try discriminate H.
    injection H as <-. discriminate Ht.
  - intros v [H | [H | [H | []]]]; try discriminate H. now injection H.
Defined.

(** ** Helper entities of the toilet *)

Lemma sub_kept_refl (s : SubEntity) : sub_kept s s.
Proof. unfold sub_kept. repeat split; lia. Qed.

Lemma sub_kept_update (s s' : SubEntity) :
  sub_kept (sub_update s) s' -> sub_kept s s'.
Proof.
  unfold sub_kept, sub_update; simpl.
  intros (H1 & H2 & H3 & H4 & H5). repeat split; try assumption. lia.
Qed.

(** What one run of the loop over [pls] does to [subs]: the helpers it
    adds are fans built for properties of [pls] that have values, one for
    each name that was free; every helper already stored is kept; with a
    registered callback every property that has values ends with a helper
    under its name. *)
Lemma fans_loop_spec (add_fans : bool) (pls : list (MiotProperty * MiotService)) :
  forall (subs : gmap string SubEntity) (added : list (string * SubEntity)),
  exists new,
    (fans_loop add_fans pls subs added).2 = (added ++ new)%list
    /\ (forall k s0, subs !! k = Some s0 ->
          exists s, (fans_loop add_fans pls subs added).1 !! k = Some s
                    /\ sub_kept s0 s)
    /\ NoDup new.*1
    /\ (forall k s, (k, s) ∈ new ->
          subs !! k = None
          /\ (exists s', (fans_loop add_fans pls subs added).1 !! k = Some s'
                         /\ sub_kept s s')
          /\ exists p srv, (p, srv) ∈ pls /\ has_values p = true
                           /\ k = prop_name p /\ s = new_fan p srv)
    /\ (add_fans = true -> forall p srv, (p, srv) ∈ pls -> has_values p = true ->
          is_Some ((fans_loop add_fans pls subs added).1 !! prop_name p)).
Proof.
  induction pls as [|[p srv] pls IH]; intros subs added.
  - exists []. cbn [fans_loop fst snd]. rewrite app_nil_r.
    split; [reflexivity|]. split.
    { intros k s0 Hk. exists s0. split; [exact Hk | apply sub_kept_refl]. }
    split; [constructor|]. split.
    { intros k s Hin. inversion Hin. }
    intros _ q srv' Hin. inversion Hin.
  - cbn [fans_loop].
    destruct (has_values p) eqn:Hval; cbn [negb].
    2:{ destruct (IH subs added) as (new & Hadd & Hkept & Hnd & Hnew & Hcov).
        exists new. split; [exact Hadd|]. split; [exact Hkept|].
        split; [exact Hnd|]. split.
        - intros k s Hin. destruct (Hnew k s Hin) as (Hfree & Hst & q & sq & Hq & Hrest).
          split; [exact Hfree|]. split; [exact Hst|].
          exists q, sq. split; [right; exact Hq | exact Hrest].
        - intros Ha q sq Hin Hq. apply elem_of_cons in Hin as [Heq | Hin].
          + injection Heq as -> ->. congruence.
          + eapply Hcov; eassumption. }
    destruct (subs !! prop_name p) as [s|] eqn:Hsub.
    + destruct (IH (<[prop_name p := sub_update s]> subs) added)
        as (new & Hadd & Hkept & Hnd & Hnew & Hcov).
      exists new. split; [exact Hadd|]. split.
      { intros k s0 Hk. destruct (decide (prop_name p = k)) as [<- | Hne].
        - rewrite Hsub in Hk. injection Hk as <-.
          destruct (Hkept (prop_name p) (sub_update s)) as (s' & Hs' & Hk').
          { apply lookup_insert_eq. }
          exists s'. split; [exact Hs' | now apply sub_kept_update].
        - apply Hkept. rewrite lookup_insert_ne by exact Hne. exact Hk. }
      split; [exact Hnd|]. split.
      { intros k s1 Hin.
        destruct (Hnew k s1 Hin) as (Hfree & Hst & q & sq & Hq & Hrest).
        split.
        - destruct (decide (prop_name p = k)) as [<- | Hne].
          + rewrite lookup_insert_eq in Hfree. discriminate.
          + rewrite lookup_insert_ne in Hfree by exact Hne. exact Hfree.
        - split; [exact Hst|]. exists q, sq. split; [right; exact Hq | exact Hrest]. }
      intros Ha q sq Hin Hq. apply elem_of_cons in Hin as [Heq | Hin].
      * injection Heq as -> ->.
        destruct (Hkept (prop_name p) (sub_update s)) as (s' & Hs' & _).
        { apply lookup_insert_eq. }
        rewrite Hs'. eexists; reflexivity.
      * eapply Hcov; eassumption.
    + destruct add_fans.
      * destruct (IH (<[prop_name p := new_fan p srv]> subs)
                    (added ++ [(prop_name p, new_fan p srv)])%list)
          as (new & Hadd & Hkept & Hnd & Hnew & Hcov).
        exists ((prop_name p, new_fan p srv) :: new).
        split. { rewrite Hadd, <- app_assoc. reflexivity. }
        split.
        { intros k s0 Hk. apply Hkept.
          rewrite lookup_insert_ne; [exact Hk|]. intros <-. congruence. }
        split.
        { rewrite fmap_cons. apply NoDup_cons. split; [|exact Hnd].
          cbn [fst]. intros Hin. apply list_elem_of_fmap in Hin as ([k s1] & Hk & Hin).
          cbn [fst] in Hk. subst k.
          destruct (Hnew _ _ Hin) as (Hfree & _).
          rewrite lookup_insert_eq in Hfree. discriminate. }
        split.
        { intros k s1 Hin. apply elem_of_cons in Hin as [Heq | Hin].
          - injection Heq as -> ->. split; [exact Hsub|]. split.
            + apply Hkept. apply lookup_insert_eq.
            + exists p, srv. split; [left|]. auto.
          - destruct (Hnew k s1 Hin) as (Hfree & Hst & q & sq & Hq & Hrest).
            split.
            + destruct (decide (prop_name p = k)) as [<- | Hne].
              * rewrite lookup_insert_eq in Hfree. discriminate.
              * rewrite lookup_insert_ne in Hfree by exact Hne. exact Hfree.
            + split; [exact Hst|]. exists q, sq.
              split; [right; exact Hq | exact Hrest]. }
        intros _ q sq Hin Hq. apply elem_of_cons in Hin as [Heq | Hin].
        -- injection Heq as -> ->.
           destruct (Hkept (prop_name p) (new_fan p srv)) as (s' & Hs' & _).
           { apply lookup_insert_eq. }
           rewrite Hs'. eexists; reflexivity.
        -- eapply Hcov; [reflexivity | exact Hin | exact Hq].
      * destruct (IH subs added) as (new & Hadd & Hkept & Hnd & Hnew & Hcov).
        exists new. split; [exact Hadd|]. split; [exact Hkept|].
        split; [exact Hnd|]. split.
        { intros k s Hin.
          destruct (Hnew k s Hin) as (Hfree & Hst & q & sq & Hq & Hrest).
          split; [exact Hfree|]. split; [exact Hst|].
          exists q, sq. split; [right; exact Hq | exact Hrest]. }
        intros Ha. discriminate Ha.
Qed.


Lemma sub_kept_trans (s1 s2 s3 : SubEntity) :
  sub_kept s1 s2 -> sub_kept s2 s3 -> sub_kept s1 s3.
Proof.
  unfold sub_kept. intros (A1 & A2 & A3 & A4 & A5) (B1 & B2 & B3 & B4 & B5).
  repeat split; try congruence. lia.
Qed.

(** What the power switch step does to [subs]. *)
Lemma power_switch_spec (add_switches : bool) (prop_power : option MiotProperty)
    (subs : gmap string SubEntity) :
  (forall k s0, subs !! k = Some s0 ->
     exists s, (power_switch add_switches prop_power subs []).1 !! k = Some s
               /\ sub_kept s0 s)
  /\ (forall k s, (k, s) ∈ (power_switch add_switches prop_power subs []).2 ->
        (power_switch add_switches prop_power subs []).2 = [(k, s)]
        /\ subs !! k = None
        /\ (power_switch add_switches prop_power subs []).1 !! k = Some s
        /\ s = new_switch k)
  /\ (add_switches = true -> forall pw, prop_power = Some pw ->
        is_Some ((power_switch add_switches prop_power subs []).1 !! full_name pw)).
Proof.
  unfold power_switch.
  destruct prop_power as [pw|]; cbn [fst snd].
  2:{ split; [|split].
      - intros k s0 Hk. exists s0. split; [exact Hk | apply sub_kept_refl].
      - intros k s Hin. inversion Hin.
      - intros _ pw Hpw. discriminate Hpw. }
  destruct (subs !! full_name pw) as [s|] eqn:Hsub; cbn [fst snd].
  - split; [|split].
    + intros k s0 Hk. destruct (decide (full_name pw = k)) as [<- | Hne].
      * rewrite Hsub in Hk. injection Hk as <-. exists (sub_update s).
        split; [apply lookup_insert_eq|].
        apply sub_kept_update, sub_kept_refl.
      * exists s0. rewrite lookup_insert_ne by exact Hne.
        split; [exact Hk | apply sub_kept_refl].
    + intros k s1 Hin. inversion Hin.
    + intros _ pw' [= <-]. rewrite lookup_insert_eq. eexists; reflexivity.
  - destruct add_switches; cbn [fst snd app].
    + split; [|split].
      * intros k s0 Hk. exists s0. split; [|apply sub_kept_refl].
        rewrite lookup_insert_ne; [exact Hk|]. intros <-. congruence.
      * intros k s Hin. apply list_elem_of_singleton in Hin. injection Hin as -> ->.
        split; [reflexivity|]. split; [exact Hsub|].
        split; [apply lookup_insert_eq | reflexivity].
      * intros _ pw' [= <-]. rewrite lookup_insert_eq. eexists; reflexivity.
    + split; [|split].
      * intros k s0 Hk. exists s0. split; [exact Hk | apply sub_kept_refl].
      * intros k s Hin. inversion Hin.
      * intros Ha. discriminate Ha.
Qed.

(** Without a callback the loop builds nothing and keeps the names. *)
Lemma fans_loop_no_callback (pls : list (MiotProperty * MiotService)) :
  forall (subs : gmap string SubEntity) (added : list (string * SubEntity)),
    (fans_loop false pls subs added).2 = added
    /\ dom (fans_loop false pls subs added).1 = dom subs.
Proof.
  induction pls as [|[p srv] pls IH]; intros subs added; [split; reflexivity|].
  cbn [fans_loop]. destruct (negb (has_values p)); [apply IH|].
  destruct (subs !! prop_name p) as [s|] eqn:Hsub; [|apply IH].
  destruct (IH (<[prop_name p := sub_update s]> subs) added) as [Ha Hd].
  split; [exact Ha|]. rewrite Hd. apply dom_insert_lookup_L. eexists; exact Hsub.
Qed.

(** A switch is built only with a callback, for a power property whose
    full name is free. *)
Lemma power_switch_created (add_switches : bool)
    (prop_power : option MiotProperty) (subs : gmap string SubEntity)
    (k : string) (s : SubEntity) :
  (k, s) ∈ (power_switch add_switches prop_power subs []).2 ->
  add_switches = true
  /\ exists pw, prop_power = Some pw /\ k = full_name pw
                /\ subs !! full_name pw = None /\ s = new_switch k.
Proof.
  unfold power_switch.
  destruct prop_power as [pw|]; [|intros H; inversion H].
  destruct (subs !! full_name pw) eqn:Hsub; [intros H; inversion H|].
  destruct add_switches; [|intros H; inversion H].
  cbn [snd app]. intros H. apply list_elem_of_singleton in H. injection H as -> ->.
  split; [reflexivity|]. exists pw. auto.
Qed.










(** ** More on the constructors *)

Lemma initial_property (srv : MiotService) :
  get_property srv (initial_pls srv) = first_named_property srv.
Proof.
  unfold initial_pls, first_named_property.
  destruct (properties (node srv)) as [|q l] eqn:Hprops; [reflexivity|].
  destruct (String.eqb (prop_name q) ""); [reflexivity|].
  cbn [negb get_property]. rewrite Hprops. cbn [find].
  rewrite String.eqb_refl. reflexivity.
Qed.

Section ConstructorFacts.

Variable init : MiotService -> Config -> option (list (string * (Z * Z))) -> Entity.

(** X1: the constructor raises exactly for a [motion_sensor] service that
    has no [motion_state], no [no_motion_duration] and no named first
    property. *)
Theorem init_raises_iff (config : Config) (srv : MiotService)
    (kw : option (list (string * (Z * Z)))) :
  MiotBinarySensorEntity_init init config srv kw = None
  <-> name srv = "motion_sensor"
      /\ get_property srv ["motion_state"; "no_motion_duration"] = None
      /\ first_named_property srv = None.
Proof.
  unfold MiotBinarySensorEntity_init. cbv zeta.
  rewrite initial_property, !in_strs_single.
  cbn [_prop_state with_prop_state].
  remember (get_property srv ["motion_state"; "no_motion_duration"]) as ms.
  remember (first_named_property srv) as fp.
  rewrite bind_None. split.
  - intros [H | (self & _ & H)]; [|cbv beta in H; discriminate H].
    destruct (String.eqb (name srv) "motion_sensor") eqn:Hname; [|discriminate H].
    apply String.eqb_eq in Hname.
    apply bind_None in H as [H | (p & _ & H)]; [|cbv beta in H; discriminate H].
    destruct ms; [discriminate H|]. destruct fp; [discriminate H|]. auto.
  - intros (Hname & -> & ->). left.
    apply String.eqb_eq in Hname. rewrite Hname. reflexivity.
Qed.

(** X2: for a [magnet_sensor] ([submersion_sensor]) service the constructor
    returns; the state property is [contact_state] ([submersion_state]),
    else the named first property, and the device class is that of a door
    (of moisture). *)
Theorem sensor_state_property (config : Config) (srv : MiotService)
    (kw : option (list (string * (Z * Z)))) (key dc : string) :
  (name srv = "magnet_sensor" /\ key = "contact_state" /\ dc = DEVICE_CLASS_DOOR)
  \/ (name srv = "submersion_sensor" /\ key = "submersion_state"
      /\ dc = DEVICE_CLASS_MOISTURE) ->
  exists e,
    MiotBinarySensorEntity_init init config srv kw = Some e
    /\ _prop_state e = first_some (get_property srv [key]) (first_named_property srv)
    /\ _device_class e = Some dc.
Proof.
  intros Hcase. unfold MiotBinarySensorEntity_init.
  rewrite initial_property, !in_strs_single.
  remember (first_named_property srv) as fp.
  destruct Hcase as [(-> & -> & ->) | (-> & -> & ->)]; cbn;
    eexists; (split; [reflexivity|]); split; reflexivity.
Qed.

(** X3: every entity the setup builds records the full name of its state
    property, or [None], under [state_property]. *)
Theorem state_property_recorded (config : Config) (did model : string)
    (sp : MiotSpec) (srv : MiotService) (e : Entity) :
  new_entity init config did model sp srv = Some e ->
  _state_attrs e !! "state_property" = Some (state_property_attr e).
Proof.
  assert (Hbase : forall kw e0,
             MiotBinarySensorEntity_init init config srv kw = Some e0 ->
             _state_attrs e0 !! "state_property" = Some (state_property_attr e0)).
  { intros kw e0 H. unfold MiotBinarySensorEntity_init in H. cbv zeta in H.
    apply bind_Some in H as (self & _ & H). injection H as <-.
    cbn [_state_attrs with_state_attrs]. rewrite lookup_insert_eq.
    reflexivity. }
  assert (Hble : forall e0,
             BleBinarySensorEntity_init init config srv = Some e0 ->
             _state_attrs e0 !! "state_property" = Some (state_property_attr e0)).
  { intros e0 H. unfold BleBinarySensorEntity_init in H.
    apply bind_Some in H as (self & Hself & H). apply Hbase in Hself.
    injection H as <-. repeat (case_match; cbn); exact Hself. }
  assert (Hlumi : forall e0,
             LumiBinarySensorEntity_init init config srv = Some e0 ->
             _state_attrs e0 !! "state_property" = Some (state_property_attr e0)).
  { intros e0 H. unfold LumiBinarySensorEntity_init in H.
    apply bind_Some in H as (self & Hself & H). apply Hbase in Hself.
    injection H as <-. exact Hself. }
  assert (Htoilet : forall e0,
             MiotToiletEntity_init init config srv = Some e0 ->
             _state_attrs e0 !! "state_property" = Some (state_property_attr e0)).
  { intros e0 H. unfold MiotToiletEntity_init in H. cbv zeta in H.
    apply bind_Some in H as (self & _ & H). injection H as <-.
    cbn [_state_attrs with_state_attrs]. rewrite lookup_insert_eq.
    reflexivity. }
  unfold new_entity. intros H.
  repeat match type of H with
         | (if ?c then _ else _) = _ => destruct c
         end; auto.
  eapply Hbase; exact H.
Qed.

Lemma base_device_class (config : Config) (srv : MiotService)
    (kw : option (list (string * (Z * Z)))) (e : Entity) (dc : string) :
  In (name srv, dc)
    [("motion_sensor", DEVICE_CLASS_MOTION); ("magnet_sensor", DEVICE_CLASS_DOOR);
     ("submersion_sensor", DEVICE_CLASS_MOISTURE)] ->
  MiotBinarySensorEntity_init init config srv kw = Some e ->
  _device_class e = Some dc.
Proof.
  intros Hin Hinit. unfold MiotBinarySensorEntity_init in Hinit.
  remember (get_property srv ["motion_state"; "no_motion_duration"]) as ms.
  remember (get_property srv (initial_pls srv)) as fp.
  remember (get_service (spec srv) ["nobody_time"]) as nb.
  remember (get_property srv ["contact_state"]) as cs.
  remember (get_property srv ["submersion_state"]) as ss.
  destruct Hin as [H | [H | [H | []]]]; injection H as Hname <-;
    rewrite <- Hname in Hinit; simpl in Hinit.
  - destruct ms as [p|]; [|destruct fp as [p|]]; simpl in Hinit;
      try discriminate Hinit;
      repeat match type of Hinit with
             | context [if ?c then _ else _] => destruct c; simpl in Hinit
             | context [match nb with _ => _ end] => destruct nb; simpl in Hinit
             end;
      injection Hinit as <-; reflexivity.
  - injection Hinit as <-. reflexivity.
  - injection Hinit as <-. reflexivity.
Qed.

(** X4: an entity built for a [motion_sensor], [magnet_sensor] or
    [submersion_sensor] service reports the device class of motion, of a
    door or of moisture, whatever its class and whatever the base classes
    would answer. *)
Theorem sensor_device_class (config : Config) (did model : string)
    (sp : MiotSpec) (srv : MiotService) (e : Entity)
    (inherited : option string) (dc : string) :
  In (name srv, dc)
    [("motion_sensor", DEVICE_CLASS_MOTION); ("magnet_sensor", DEVICE_CLASS_DOOR);
     ("submersion_sensor", DEVICE_CLASS_MOISTURE)] ->
  new_entity init config did model sp srv = Some e ->
  device_class inherited e = Some dc.
Proof.
  intros Hin Hnew.
  assert (Hdc : _device_class e = Some dc).
  { assert (Hnt : in_strs (name srv) ["toilet"] = false
                  /\ in_strs (name srv) ["seat"] = false).
    { destruct Hin as [H | [H | [H | []]]]; injection H as <- _; split; reflexivity. }
    destruct Hnt as [Ht Hs]. unfold new_entity in Hnew.
    rewrite Ht, Hs in Hnew. cbn [andb] in Hnew.
    destruct (contains "blt." did).
    { unfold BleBinarySensorEntity_init in Hnew.
      apply bind_Some in Hnew as (self & Hself & Hnew).
      apply (base_device_class _ _ _ _ dc Hin) in Hself.
      injection Hnew as <-. repeat (case_match; cbn); exact Hself. }
    destruct (contains "lumi." model).
    { unfold LumiBinarySensorEntity_init in Hnew.
      apply bind_Some in Hnew as (self & Hself & Hnew).
      apply (base_device_class _ _ _ _ dc Hin) in Hself.
      injection Hnew as <-. exact Hself. }
    eapply base_device_class; eassumption. }
  unfold device_class. rewrite Hdc.
  destruct Hin as [H | [H | [H | []]]]; injection H as _ <-; reflexivity.
Qed.

(** X5: for a service not named [motion_sensor] the toilet constructor
    returns, and the state property is [seating_state], else [mode], else
    [status]. *)
Theorem toilet_state_property (config : Config) (srv : MiotService) :
  name srv <> "motion_sensor" ->
  exists e,
    MiotToiletEntity_init init config srv = Some e
    /\ _prop_state e
       = first_some (get_property srv ["seating_state"])
           (first_some (get_property srv ["mode"]) (get_property srv ["status"])).
Proof.
  intros Hname. unfold MiotToiletEntity_init. cbv zeta.
  assert (Hbase : exists self,
             MiotBinarySensorEntity_init init config srv
               (if contains "xjx.toilet." (fstr (conf_model config))
                then Some (services_mapping (spec srv) ["toilet"; "seat"])
                else None) = Some self).
  { unfold MiotBinarySensorEntity_init. cbv zeta. rewrite !in_strs_single.
    apply String.eqb_neq in Hname. rewrite Hname.
    cbn [mbind option_bind]. eexists; reflexivity. }
  destruct Hbase as [self ->].
  cbn [mbind option_bind]. eexists. split; [reflexivity|].
  cbn [_prop_state with_state_attrs with_prop_state with_cls].
  rewrite get_property_two.
  destruct (get_property srv ["seating_state"]); reflexivity.
Qed.

(** X6: a BLE entity keeps the state property of the plain constructor;
    its illumination property is that of its service, else that of the
    spec's [illumination_sensor] service. *)
Theorem ble_illumination_property (config : Config) (srv : MiotService)
    (e : Entity) :
  BleBinarySensorEntity_init init config srv = Some e ->
  _prop_illumination e
  = first_some (get_property srv ["illumination"])
      (illumination_sensor_property (spec srv))
  /\ exists e0, MiotBinarySensorEntity_init init config srv None = Some e0
                /\ _prop_state e = _prop_state e0.
Proof.
  unfold BleBinarySensorEntity_init, illumination_sensor_property. intros H.
  apply bind_Some in H as (e0 & He0 & H). cbv zeta in H.
  cbn [_prop_illumination with_prop_illumination] in H.
  remember (get_property srv ["illumination"]) as ip.
  remember (get_service (spec srv) ["illumination_sensor"]) as isv.
  destruct ip; [|destruct isv]; injection H as <-;
    (split; [reflexivity | exists e0; split; [exact He0 | reflexivity]]).
Qed.

End ConstructorFacts.

Lemma sensor_state_property_witness :
  MiotBinarySensorEntity_init sample_base sample_config sample_magnet_service None
  = Some sample_magnet_entity
  /\ _prop_state sample_magnet_entity = Some sample_contact.
Proof.
  destruct (sensor_state_property sample_base sample_config sample_magnet_service
              None "contact_state" DEVICE_CLASS_DOOR)
    as (e & He & Hp & _).
  { left. repeat split; reflexivity. }
  assert (Heq : Some e = Some sample_magnet_entity)
    by (rewrite <- He; vm_compute; reflexivity).
  injection Heq as ->. split; [exact He | exact Hp].
Defined.

Lemma state_property_recorded_witness :
  _state_attrs sample_magnet_entity !! "state_property"
  = Some (PStr "magnet_sensor.contact_state").
Proof.
  apply (state_property_recorded sample_base sample_config "" "" 
           (spec sample_magnet_service) sample_magnet_service sample_magnet_entity).
  vm_compute; reflexivity.
Defined.

Lemma sensor_device_class_witness :
  device_class (Some "problem") sample_magnet_entity = Some "door".
Proof.
  apply (sensor_device_class sample_base sample_config "" ""
           (spec sample_magnet_service) sample_magnet_service sample_magnet_entity
           (Some "problem") DEVICE_CLASS_DOOR).
  - right; left; reflexivity.
  - vm_compute; reflexivity.
Defined.

Lemma toilet_state_property_witness :
  exists e,
    MiotToiletEntity_init sample_base sample_config sample_toilet_service = Some e
    /\ _prop_state e = Some sample_mode.
Proof.
  destruct (toilet_state_property sample_base sample_config sample_toilet_service)
    as (e & He & Hp); [discriminate|].
  exists e. split; [exact He | exact Hp].
Defined.

Lemma ble_illumination_property_witness :
  exists e,
    BleBinarySensorEntity_init sample_base sample_config sample_motion_service
    = Some e
    /\ _prop_illumination e = Some (sample_property "motion_sensor" "illumination").
Proof.
  assert (Hrun : exists e,
             BleBinarySensorEntity_init sample_base sample_config
               sample_motion_service = Some e)
    by (eexists; vm_compute; reflexivity).
  destruct Hrun as [e He]. exists e. split; [exact He|].
  exact (proj1 (ble_illumination_property sample_base sample_config
                  sample_motion_service e He)).
Defined.

(** ** More on the state logic *)

(** X7: without a state property, or without a reported value for it,
    [is_on] is the stored state, so the state is unknown exactly when
    nothing is stored. *)
Theorem is_on_fallback (self : Entity) :
  (_prop_state self = None
   \/ exists p, _prop_state self = Some p
                /\ from_dict p (_state_attrs self) = PNone) ->
  is_on self = Some (_state self)
  /\ (state self = Some STATE_UNKNOWN <-> _state self = PNone).
Proof.
  intros Hcase.
  assert (Hon : is_on self = Some (_state self)).
  { unfold is_on. destruct Hcase as [-> | (p & -> & ->)]; reflexivity. }
  split; [exact Hon|]. unfold state. rewrite Hon. cbn [mbind option_bind].
  unfold STATE_UNKNOWN, STATE_ON, STATE_OFF.
  destruct (_state self) as [ | b | z | s | l | d ]; cbn;
    try (destruct b); try (destruct (z =? 0)); try (destruct (String.eqb s ""));
    try (destruct l); try (destruct d);
    split; intros H; try discriminate H; reflexivity.
Qed.

Lemma is_on_fallback_witness :
  is_on (sample_base sample_magnet_service sample_config None) = Some PNone
  /\ state (sample_base sample_magnet_service sample_config None)
     = Some STATE_UNKNOWN.
Proof.
  destruct (is_on_fallback (sample_base sample_magnet_service sample_config None)
              (or_introl eq_refl)) as [Hon Hst].
  split; [exact Hon | apply Hst; reflexivity].
Defined.

(** X8: with [reverse_state] configured, a reported value gives the state
    off when it is truthy and on when it is not. *)
Theorem state_reverse (self : Entity) (p : MiotProperty) :
  _prop_state self = Some p ->
  from_dict p (_state_attrs self) <> PNone ->
  opt_true (custom_config_bool self "reverse_state") = true ->
  is_on self = Some (PBool (negb (truthy (from_dict p (_state_attrs self)))))
  /\ state self = Some (if truthy (from_dict p (_state_attrs self))
                        then STATE_OFF else STATE_ON).
Proof.
  intros Hp Hv Hrev.
  assert (Hon : is_on self
                = Some (PBool (negb (truthy (from_dict p (_state_attrs self)))))).
  { unfold is_on. rewrite Hp.
    destruct (from_dict p (_state_attrs self)) eqn:Hval; try congruence;
      rewrite Hrev; reflexivity. }
  split; [exact Hon|]. unfold state. rewrite Hon. cbn.
  destruct (truthy (from_dict p (_state_attrs self))); reflexivity.
Qed.

Lemma state_reverse_witness :
  state (sample_contact_entity (Some true) (PBool true)) = Some STATE_OFF
  /\ state (sample_contact_entity (Some true) (PInt 0)) = Some STATE_ON.
Proof.
  split.
  - apply (state_reverse (sample_contact_entity (Some true) (PBool true))
             sample_contact); [reflexivity | vm_compute; discriminate | reflexivity].
  - apply (state_reverse (sample_contact_entity (Some true) (PInt 0))
             sample_contact); [reflexivity | vm_compute; discriminate | reflexivity].
Defined.

(** X9: for a state property that is not a duration, without
    [reverse_state], a reported value gives the state on exactly when it is
    truthy; [is_on] does not raise. *)
Theorem state_plain (self : Entity) (p : MiotProperty) :
  _prop_state self = Some p ->
  in_strs (prop_name p) ["no_motion_duration"; "nobody_time"] = false ->
  from_dict p (_state_attrs self) <> PNone ->
  opt_true (custom_config_bool self "reverse_state") = false ->
  exists iso,
    is_on self = Some iso
    /\ truthy iso = truthy (from_dict p (_state_attrs self))
    /\ state self = Some (if truthy (from_dict p (_state_attrs self))
                          then STATE_ON else STATE_OFF).
Proof.
  intros Hp Hname Hv Hrev.
  exists (py_and (from_dict p (_state_attrs self)) (PBool true)).
  assert (Hon : is_on self
                = Some (py_and (from_dict p (_state_attrs self)) (PBool true))).
  { unfold is_on. rewrite Hp.
    destruct (from_dict p (_state_attrs self)) eqn:Hval; try congruence;
      rewrite Hrev, Hname; reflexivity. }
  split; [exact Hon|]. unfold state. rewrite Hon. unfold py_and.
  destruct (truthy (from_dict p (_state_attrs self))) eqn:Ht.
  - split; reflexivity.
  - split; [exact Ht|]. cbn [mbind option_bind]. rewrite Ht.
    destruct (from_dict p (_state_attrs self)); try congruence; reflexivity.
Qed.

Lemma state_plain_witness :
  state (sample_contact_entity None (PBool true)) = Some STATE_ON
  /\ state (sample_contact_entity None (PStr "")) = Some STATE_OFF.
Proof.
  split.
  - destruct (state_plain (sample_contact_entity None (PBool true)) sample_contact)
      as (iso & _ & _ & Hst);
      [reflexivity | reflexivity | vm_compute; discriminate | reflexivity |].
    exact Hst.
  - destruct (state_plain (sample_contact_entity None (PStr "")) sample_contact)
      as (iso & _ & _ & Hst);
      [reflexivity | reflexivity | vm_compute; discriminate | reflexivity |].
    exact Hst.
Defined.

(** X10: [is_on], and with it [state], raises exactly when a duration
    property without [reverse_state] reports a value that is neither
    [None] nor a number. *)
Theorem is_on_raises_iff (self : Entity) :
  is_on self = None
  <-> exists p,
        _prop_state self = Some p
        /\ in_strs (prop_name p) ["no_motion_duration"; "nobody_time"] = true
        /\ opt_true (custom_config_bool self "reverse_state") = false
        /\ from_dict p (_state_attrs self) <> PNone
        /\ py_num (from_dict p (_state_attrs self)) = None.
Proof.
  unfold is_on. split.
  - destruct (_prop_state self) as [p|] eqn:Hp; [|discriminate].
    intros H. exists p. split; [reflexivity|].
    destruct (from_dict p (_state_attrs self)) eqn:Hval; try discriminate H;
      destruct (opt_true (custom_config_bool self "reverse_state"));
      try discriminate H;
      destruct (in_strs (prop_name p) ["no_motion_duration"; "nobody_time"]);
      try discriminate H;
      unfold range_step, range_min, py_le_int in H;
      destruct (custom_config_integer self "motion_timeout");
      destruct (value_range p) as [[[mn mx] stp]|];
      cbn in H; try (destruct (10 <=? stp)); cbn in H; try discriminate H;
      repeat split; discriminate.
  - intros (p & -> & Hname & Hrev & Hv & Hnum).
    destruct (from_dict p (_state_attrs self)) eqn:Hval; try congruence;
      try discriminate Hnum;
      rewrite Hrev, Hname; unfold range_step, range_min, py_le_int;
      destruct (custom_config_integer self "motion_timeout");
      destruct (value_range p) as [[[mn mx] stp]|];
      cbn; try (destruct (10 <=? stp)); reflexivity.
Qed.

(** ** BLE object values *)

Lemma hexval_range (c : ascii) (n : Z) : hexval c = Some n -> 0 <= n < 16.
Proof.
  unfold hexval.
  repeat match goal with
         | |- context [if ?b then _ else _] => destruct b eqn:?
         end; intros [= <-]; lia.
Qed.

Lemma fromhex_bytes_upto (n : nat) :
  forall s bs, (String.length s <= n)%nat -> fromhex s = Some bs ->
    Forall (fun b => 0 <= b < 256) bs
    /\ (2 * length bs <= String.length s)%nat.
Proof.
  induction n as [|n IH]; intros s bs Hn.
  - destruct s; [|cbn in Hn; lia]. intros [= <-]. split; [constructor | cbn; lia].
  - destruct s as [|c s].
    { intros [= <-]. split; [constructor | cbn; lia]. }
    cbn [String.length] in Hn. cbn [fromhex]. destruct (is_space c).
    + intros H. apply IH in H; [|lia]. cbn [String.length]. split; [tauto | lia].
    + destruct s as [|c2 s]; [discriminate|].
      destruct (hexval c) as [hi|] eqn:Hhi; [|discriminate].
      destruct (hexval c2) as [lo|] eqn:Hlo; [|discriminate].
      cbn [mbind option_bind].
      destruct (fromhex s) as [rest|] eqn:Hrest; [|discriminate].
      cbn [mbind option_bind]. intros [= <-].
      cbn [String.length] in Hn.
      apply IH in Hrest; [|lia]. destruct Hrest as [Hall Hlen].
      apply hexval_range in Hhi, Hlo.
      split; [constructor; [lia | exact Hall] | cbn [length String.length]; lia].
Qed.

Lemma fromhex_bytes (s : string) (bs : list Z) :
  fromhex s = Some bs ->
  Forall (fun b => 0 <= b < 256) bs
  /\ (2 * length bs <= String.length s)%nat.
Proof. apply (fromhex_bytes_upto (String.length s)). lia. Qed.

Lemma from_bytes_little_range (bs : list Z) :
  Forall (fun b => 0 <= b < 256) bs ->
  0 <= from_bytes_little bs < 256 ^ Z.of_nat (length bs).
Proof.
  induction 1 as [|b bs Hb _ IH]; [cbn; lia|].
  cbn [from_bytes_little length]. rewrite Nat2Z.inj_succ, Z.pow_succ_r by lia.
  lia.
Qed.

(** Decoding a BLE object value never raises: a falsy value is left as it
    is, a value that is not a hexadecimal text becomes [None], and a
    hexadecimal text [s] becomes a number from 0 up to, not including,
    16 to the length of [s]. *)
Lemma decode_ble_value_cases (val : pyval) :
  (truthy val = false /\ decode_ble_value val = val)
  \/ (truthy val = true /\ decode_ble_value val = PNone)
  \/ exists s n, val = PStr s /\ decode_ble_value val = PInt n
                 /\ 0 <= n < 16 ^ Z.of_nat (String.length s).
Proof.
  unfold decode_ble_value.
  destruct (truthy val) eqn:Ht; [|left; split; reflexivity]. right.
  destruct val as [ | b | z | s | l | d ]; try (left; split; reflexivity).
  destruct (fromhex s) as [bs|] eqn:Hhex; [|left; split; reflexivity].
  right. exists s, (from_bytes_little bs). split; [reflexivity|]. split; [reflexivity|].
  apply fromhex_bytes in Hhex as [Hall Hlen].
  apply from_bytes_little_range in Hall.
  assert (Hpow : 256 ^ Z.of_nat (length bs) <= 16 ^ Z.of_nat (String.length s)).
  { replace 256 with (16 ^ 2) by reflexivity. rewrite <- Z.pow_mul_r by lia.
    apply Z.pow_le_mono_r; lia. }
  lia.
Qed.

Lemma hexdigit_spec (d : Z) :
  0 <= d < 16 -> is_space (hexdigit d) = false /\ hexval (hexdigit d) = Some d.
Proof.
  intros Hd.
  assert (Hcases : d = 0 \/ d = 1 \/ d = 2 \/ d = 3 \/ d = 4 \/ d = 5 \/ d = 6
                   \/ d = 7 \/ d = 8 \/ d = 9 \/ d = 10 \/ d = 11 \/ d = 12
                   \/ d = 13 \/ d = 14 \/ d = 15) by lia.
  repeat (destruct Hcases as [-> | Hcases]; [split; reflexivity|]).
  subst d. split; reflexivity.
Qed.

Lemma fromhex_hex_of_bytes (bs : list Z) :
  Forall (fun b => 0 <= b < 256) bs -> fromhex (hex_of_bytes bs) = Some bs.
Proof.
  induction 1 as [|b bs Hb _ IH]; [reflexivity|].
  cbn [hex_of_bytes fromhex].
  destruct (hexdigit_spec (b / 16)) as [Hsp Hhi].
  { split; [apply Z.div_pos; lia | apply Z.div_lt_upper_bound; lia]. }
  destruct (hexdigit_spec (b mod 16)) as [_ Hlo].
  { apply Z.mod_pos_bound. lia. }
  rewrite Hsp, Hhi, Hlo, IH. cbn [mbind option_bind].
  do 2 f_equal. symmetry. rewrite Z.mul_comm. apply Z.div_mod. lia.
Qed.

Lemma to_bytes_little_bytes (w : nat) :
  forall n, Forall (fun b => 0 <= b < 256) (to_bytes_little w n).
Proof.
  induction w as [|w IH]; intros n; cbn [to_bytes_little]; constructor.
  - apply Z.mod_pos_bound. lia.
  - apply IH.
Qed.

Lemma from_bytes_to_bytes (w : nat) :
  forall n, 0 <= n < 256 ^ Z.of_nat w ->
            from_bytes_little (to_bytes_little w n) = n.
Proof.
  induction w as [|w IH]; intros n Hn.
  - cbn in Hn. cbn. lia.
  - cbn [to_bytes_little from_bytes_little].
    rewrite Nat2Z.inj_succ, Z.pow_succ_r in Hn by lia.
    rewrite IH.
    + symmetry. rewrite Z.add_comm. apply Z.div_mod. lia.
    + split; [apply Z.div_pos; lia | apply Z.div_lt_upper_bound; lia].
Qed.

(** X11: decoding inverts the little-endian hexadecimal text of a number:
    for a width [w] of at least one byte and a number [n] that fits in
    [w] bytes, the text of the [w] bytes of [n], least significant byte
    first and two digits per byte, decodes to [n]. *)
Theorem decode_ble_value_roundtrip (w : nat) (n : Z) :
  (0 < w)%nat ->
  0 <= n < 256 ^ Z.of_nat w ->
  decode_ble_value (PStr (hex_little w n)) = PInt n.
Proof.
  intros Hw Hn. unfold decode_ble_value, hex_little.
  rewrite fromhex_hex_of_bytes by apply to_bytes_little_bytes.
  rewrite from_bytes_to_bytes by exact Hn.
  destruct w as [|w]; [lia|]. reflexivity.
Qed.

Lemma decode_ble_value_roundtrip_witness :
  decode_ble_value (PStr "3412") = PInt 4660
  /\ decode_ble_value (PStr "02") = PInt 2.
Proof.
  split.
  - apply (decode_ble_value_roundtrip 2 4660); [lia | cbn; lia].
  - apply (decode_ble_value_roundtrip 1 2); [lia | cbn; lia].
Defined.

(** ** More on the BLE update *)

Section BleMore.

Variable py : PyLib.
Variable now : Z.
Variable self : Entity.

(** An object that is not an event decodes without raising. *)
Lemma ble_object_prop (k : string) (v : pyval) :
  contains "event." k = false ->
  ble_object py k v = Some (false, 0, decode_ble_value v).
Proof.
  intros Hk. unfold ble_object. rewrite Hk. reflexivity.
Qed.

Lemma ble_step_magnet (v : pyval) (sta : option bool) (adt : gmap string pyval) :
  v <> PNone ->
  ble_step py now self "prop.4121" v sta adt
  = Some (Some (py_ne_int (decode_ble_value v) 2), adt).
Proof.
  intros Hv. unfold ble_step.
  destruct (is_None v) eqn:Hn; [destruct v; try discriminate Hn; congruence|].
  rewrite ble_object_prop by reflexivity. reflexivity.
Qed.

Lemma ble_step_prop_total (k : string) (v : pyval) (sta : option bool)
    (adt : gmap string pyval) :
  contains "event." k = false ->
  exists r, ble_step py now self k v sta adt = Some r.
Proof.
  intros Hk. unfold ble_step.
  destruct (is_None v); [eexists; reflexivity|].
  rewrite (ble_object_prop k v Hk). cbn [mbind option_bind andb].
  destruct (String.eqb k "event.15") eqn:H15.
  { apply String.eqb_eq in H15. subst k. discriminate Hk. }
  repeat match goal with
         | |- context [if ?c then _ else _] => destruct c
         end; eexists; reflexivity.
Qed.

Lemma ble_loop_props_total (items : list (string * pyval)) :
  (forall k v, In (k, v) items -> contains "event." k = false) ->
  forall sta adt, exists r, ble_loop py now self items sta adt = Some r.
Proof.
  induction items as [|[k v] items IH]; intros Hk sta adt.
  - eexists; reflexivity.
  - cbn [ble_loop].
    destruct (ble_step_prop_total k v sta adt) as [[sta1 adt1] ->].
    { apply (Hk k v). left; reflexivity. }
    cbn [mbind option_bind]. apply IH.
    intros k' v' Hin. apply (Hk k' v'). right; exact Hin.
Qed.

(** What the update can do to an entity: set the state to a boolean and
    merge attributes. *)
Lemma ble_update_shape (rdt : pyval) (e' : Entity) :
  async_update_ble_data py now rdt self = Some e' ->
  exists adt,
    e' = update_attrs adt self
    \/ exists b, e' = update_attrs adt (with_state (PBool b) self).
Proof.
  unfold async_update_ble_data. intros H.
  destruct (miot_did self) as [did|];
    [|injection H as <-; exists ∅; left; now rewrite update_attrs_empty].
  destruct (negb (String.eqb did "") && miot_cloud self);
    [|injection H as <-; exists ∅; left; now rewrite update_attrs_empty].
  apply bind_Some in H as (items & _ & H).
  apply bind_Some in H as ([sta adt] & _ & H).
  destruct (decide (adt = ∅)); injection H as <-.
  - exists ∅. rewrite update_attrs_empty.
    destruct sta as [b|]; [right; exists b|left]; now rewrite ?update_attrs_empty.
  - exists adt. destruct sta as [b|]; [right; exists b|left]; reflexivity.
Qed.

End BleMore.

Lemma update_attrs_keeps (adt : gmap string pyval) (e : Entity) (k : string) :
  is_Some (_state_attrs e !! k) -> is_Some (_state_attrs (update_attrs adt e) !! k).
Proof.
  intros [x Hx]. cbn [update_attrs _state_attrs with_state_attrs].
  destruct (adt !! k) as [y|] eqn:Hy.
  - exists y. apply lookup_union_Some_l. exact Hy.
  - exists x. rewrite lookup_union_r by exact Hy. exact Hx.
Qed.

Lemma same_but_state_update (adt : gmap string pyval) (st : pyval) (e : Entity) :
  same_but_state e (update_attrs adt (with_state st e)).
Proof. unfold same_but_state. destruct e; reflexivity. Qed.

(** X12: when the last magnet value of the payload is [v], with no timed
    motion event after it, the state becomes whether the decoded [v]
    differs from 2. *)
Theorem ble_magnet_state (py : PyLib) (now : Z) (rdt : pyval)
    (self : Entity) (did : string) (l1 l2 : list (string * pyval))
    (v : pyval) (e' : Entity) :
  miot_did self = Some did -> did <> "" -> miot_cloud self = true ->
  ble_props rdt did = Some (l1 ++ ("prop.4121", v) :: l2)%list ->
  v <> PNone ->
  (forall v' t, In ("event.15", v') l2 -> event_time py v' = Some t -> t = 0) ->
  (forall v', In ("prop.4121", v') l2 -> v' = PNone) ->
  async_update_ble_data py now rdt self = Some e' ->
  _state e' = PBool (py_ne_int (decode_ble_value v) 2).
Proof.
  intros Hdid Hne Hcloud Hprops Hv H15 H4121.
  unfold async_update_ble_data. rewrite Hdid, Hcloud.
  apply String.eqb_neq in Hne. rewrite Hne. cbn [negb andb].
  rewrite Hprops. cbn [mbind option_bind].
  rewrite ble_loop_app.
  destruct (ble_loop py now self l1 None ∅) as [[sta1 adt1]|]; [|discriminate].
  cbn [mbind option_bind ble_loop].
  rewrite ble_step_magnet by exact Hv. cbn [mbind option_bind].
  destruct (ble_loop py now self l2 _ adt1) as [[sta3 adt3]|] eqn:Hloop;
    [|discriminate].
  cbn [mbind option_bind].
  apply (ble_loop_frame py now self l2 H15 H4121) in Hloop. subst sta3.
  destruct (decide (adt3 = ∅)); intros [= <-]; reflexivity.
Qed.

Lemma ble_magnet_state_witness :
  exists e',
    async_update_ble_data sample_py 1700000030
      (sample_ble_answer sample_props_magnet) sample_ble_motion = Some e'
    /\ _state e' = PBool false.
Proof.
  assert (Hrun : exists e',
             async_update_ble_data sample_py 1700000030
               (sample_ble_answer sample_props_magnet) sample_ble_motion = Some e')
    by (eexists; vm_compute; reflexivity).
  destruct Hrun as [e' Hrun]. exists e'. split; [exact Hrun|].
  apply (ble_magnet_state sample_py 1700000030
           (sample_ble_answer sample_props_magnet) sample_ble_motion
           "blt.3.abc" [("prop.4106", PStr "5a")] [] (PStr "02") e');
    try reflexivity; try discriminate; try exact Hrun.
  - intros v' t [].
  - intros v' [].
Defined.

(** X13: the BLE update leaves the entity as it is when the entity is not
    available, when [use_ble_object] is not configured, when there is no
    device id, or when the cloud client is not a [MiotCloud]. *)
Theorem ble_update_skipped (py : PyLib) (now : Z) (rdt : pyval) (self : Entity) :
  _available self = false
  \/ opt_true (custom_config_bool self "use_ble_object") = false
  \/ miot_did self = None \/ miot_did self = Some ""
  \/ miot_cloud self = false ->
  BleBinarySensorEntity_async_update py now rdt self = Some self.
Proof.
  unfold BleBinarySensorEntity_async_update, async_update_ble_data.
  intros [H | [H | [H | [H | H]]]]; rewrite H.
  - reflexivity.
  - destruct (negb (_available self)); reflexivity.
  - destruct (negb (_available self)); [reflexivity|].
    destruct (opt_true _); reflexivity.
  - destruct (negb (_available self)); [reflexivity|].
    destruct (opt_true _); reflexivity.
  - destruct (negb (_available self)); [reflexivity|].
    destruct (opt_true _); [|reflexivity].
    destruct (miot_did self); [|reflexivity].
    rewrite andb_false_r. reflexivity.
Qed.

Lemma ble_update_skipped_witness :
  BleBinarySensorEntity_async_update sample_py 1700000030
    (sample_ble_answer sample_props_motion) sample_ble_motion
  = Some sample_ble_motion.
Proof.
  apply ble_update_skipped. right; left. reflexivity.
Defined.

(** X14: whatever the payload, an update that returns changes nothing but
    the stored state and the attributes; it removes no attribute, and it
    leaves the state or sets it to a boolean. *)
Theorem ble_update_frame (py : PyLib) (now : Z) (rdt : pyval)
    (self e' : Entity) :
  async_update_ble_data py now rdt self = Some e' ->
  same_but_state self e'
  /\ (forall k, is_Some (_state_attrs self !! k) -> is_Some (_state_attrs e' !! k))
  /\ (_state e' = _state self \/ exists b, _state e' = PBool b).
Proof.
  intros H. apply ble_update_shape in H as (adt & [-> | (b & ->)]).
  - split; [|split].
    + unfold same_but_state. destruct self; reflexivity.
    + intros k. apply update_attrs_keeps.
    + left; reflexivity.
  - split; [|split].
    + apply same_but_state_update.
    + intros k Hk. apply update_attrs_keeps. exact Hk.
    + right. exists b. reflexivity.
Qed.

Lemma ble_update_frame_witness :
  exists e',
    async_update_ble_data sample_py 1700000030
      (sample_ble_answer sample_props_motion) sample_ble_motion = Some e'
    /\ is_Some (_state_attrs e' !! "state_property").
Proof.
  assert (Hrun : exists e',
             async_update_ble_data sample_py 1700000030
               (sample_ble_answer sample_props_motion) sample_ble_motion = Some e')
    by (eexists; vm_compute; reflexivity).
  destruct Hrun as [e' Hrun]. exists e'. split; [exact Hrun|].
  destruct (ble_update_frame sample_py 1700000030 _ _ _ Hrun) as (_ & Hkeep & _).
  apply Hkeep. vm_compute. eexists; reflexivity.
Defined.

(** X15: a payload that holds property objects only never makes the update
    raise, whatever their values: a value that does not decode is dropped. *)
Theorem ble_props_never_raise (py : PyLib) (now : Z) (rdt : pyval)
    (self : Entity) (did : string) (items : list (string * pyval)) :
  miot_did self = Some did ->
  ble_props rdt did = Some items ->
  (forall k v, In (k, v) items -> contains "event." k = false) ->
  exists e', async_update_ble_data py now rdt self = Some e'.
Proof.
  intros Hdid Hitems Hk. unfold async_update_ble_data. rewrite Hdid.
  destruct (negb (String.eqb did "") && miot_cloud self); [|eexists; reflexivity].
  rewrite Hitems. cbn [mbind option_bind].
  destruct (ble_loop_props_total py now self items Hk None ∅) as [[sta adt] ->].
  cbn [mbind option_bind]. eexists; reflexivity.
Qed.

Lemma ble_props_never_raise_witness :
  exists e',
    async_update_ble_data sample_py 1700000030
      (sample_ble_answer [("prop.4103", PStr "zz"); ("prop.4106", PInt 7)])
      sample_ble_motion = Some e'.
Proof.
  apply (ble_props_never_raise sample_py 1700000030 _ sample_ble_motion
           "blt.3.abc" [("prop.4103", PStr "zz"); ("prop.4106", PInt 7)]);
    [reflexivity | reflexivity |].
  intros k v [H | [H | []]]; injection H as <- _; reflexivity.
Defined.

(** ** More on the Lumi update *)

(** What an update of an available entity can do: set the state to
    [None] or to a boolean, and merge attributes, the state among them
    under the full name of the state property when it is not [None]. *)
Lemma lumi_update_shape (py : PyLib) (now : Z) (fetched : option string)
    (self e' : Entity) :
  _available self = true ->
  LumiBinarySensorEntity_async_update py now fetched self = Some e' ->
  exists st adt,
    (st = PNone \/ exists b, st = PBool b)
    /\ e' = update_attrs
              (match _prop_state self with
               | Some p => if is_None st then adt else <[full_name p := st]> adt
               | None => adt
               end)
              (with_state st self).
Proof.
  intros Hav H. unfold LumiBinarySensorEntity_async_update in H.
  rewrite Hav in H. cbn [negb] in H.
  apply bind_Some in H as (pes & _ & H).
  apply bind_Some in H as (n & _ & H).
  apply bind_Some in H as ([[typ adt] dif] & _ & H).
  apply bind_Some in H as (adt1 & _ & H).
  cbv zeta in H.
  change (_miot_service (with_state PNone self)) with (_miot_service self) in H.
  assert (Hfin : forall st,
             (st = PNone \/ exists b, st = PBool b) ->
             Some (let adt2 := match _prop_state (with_state st self),
                                     _state (with_state st self) with
                               | Some p, PNone => adt1
                               | Some p, s => <[full_name p := s]> adt1
                               | None, _ => adt1
                               end in
                   if decide (adt2 = ∅) then with_state st self
                   else update_attrs adt2 (with_state st self)) = Some e' ->
             exists st adt,
               (st = PNone \/ exists b, st = PBool b)
               /\ e' = update_attrs
                         (match _prop_state self with
                          | Some p => if is_None st then adt
                                      else <[full_name p := st]> adt
                          | None => adt
                          end)
                         (with_state st self)).
  { clear H. intros st Hst Heq. exists st, adt1. split; [exact Hst|].
    cbn [_prop_state _state with_state] in Heq. cbv zeta in Heq.
    destruct (_prop_state self) as [p|].
    - destruct Hst as [-> | (b & ->)]; cbn [is_None] in *;
        (destruct (decide (_ = ∅)) as [He|_]; injection Heq as <-;
         [rewrite He; now rewrite update_attrs_empty | reflexivity]).
    - destruct (decide (_ = ∅)) as [He|_]; injection Heq as <-;
        [rewrite He; now rewrite update_attrs_empty | reflexivity]. }
  destruct (py_eq_str typ "event.motion"
            || in_strs (name (_miot_service self)) ["motion_sensor"]).
  { apply (Hfin (PBool (dif <=? motion_timeout_or_60 self)));
      [right; eexists; reflexivity | exact H]. }
  destruct (py_eq_str typ "event.open" || py_eq_str typ "event.close").
  { apply (Hfin (PBool (py_eq_str typ "event.open")));
      [right; eexists; reflexivity | exact H]. }
  destruct (py_eq_str typ "event.leak" || py_eq_str typ "event.no_leak").
  { apply (Hfin (PBool (py_eq_str typ "event.leak")));
      [right; eexists; reflexivity | exact H]. }
  apply (Hfin PNone); [left; reflexivity | exact H].
Qed.

(** X16: an update that returns changes nothing but the stored state and
    the attributes; it removes no attribute, and the state it leaves is
    the old one (entity not available), [None] or a boolean. *)
Theorem lumi_update_frame (py : PyLib) (now : Z) (fetched : option string)
    (self e' : Entity) :
  LumiBinarySensorEntity_async_update py now fetched self = Some e' ->
  same_but_state self e'
  /\ (forall k, is_Some (_state_attrs self !! k) -> is_Some (_state_attrs e' !! k))
  /\ (_state e' = _state self \/ _state e' = PNone \/ exists b, _state e' = PBool b).
Proof.
  intros H. destruct (_available self) eqn:Hav.
  - apply lumi_update_shape in H as (st & adt & Hst & ->); [|exact Hav].
    split; [apply same_but_state_update|]. split.
    + intros k Hk. apply update_attrs_keeps. exact Hk.
    + right. exact Hst.
  - unfold LumiBinarySensorEntity_async_update in H. rewrite Hav in H.
    injection H as <-. split; [|split].
    + unfold same_but_state. destruct self; reflexivity.
    + auto.
    + left; reflexivity.
Qed.

Lemma lumi_update_frame_witness :
  exists e',
    LumiBinarySensorEntity_async_update sample_py 1700001000
      (Some sample_log_text) sample_lumi_magnet = Some e'
    /\ same_but_state sample_lumi_magnet e'.
Proof.
  assert (Hrun : exists e',
             LumiBinarySensorEntity_async_update sample_py 1700001000
               (Some sample_log_text) sample_lumi_magnet = Some e')
    by (eexists; vm_compute; reflexivity).
  destruct Hrun as [e' Hrun]. exists e'. split; [exact Hrun|].
  exact (proj1 (lumi_update_frame sample_py 1700001000 _ _ _ Hrun)).
Defined.

Lemma lumi_shape_mirror (self : Entity) (p : MiotProperty) (st : pyval)
    (adt : gmap string pyval) :
  _prop_state self = Some p ->
  st <> PNone ->
  _state_attrs
    (update_attrs
       (match _prop_state self with
        | Some p => if is_None st then adt else <[full_name p := st]> adt
        | None => adt
        end)
       (with_state st self)) !! full_name p = Some st.
Proof.
  intros Hp Hst. rewrite Hp.
  cbn [_state_attrs update_attrs with_state with_state_attrs].
  destruct st; try congruence; cbn [is_None];
    apply lookup_union_Some_l; apply lookup_insert_eq.
Qed.

(** A duration property that reports a boolean: the comparison reads it
    as 0 or 1. *)
Lemma is_on_duration_bool (self : Entity) (p : MiotProperty) (b : bool) :
  _prop_state self = Some p ->
  prop_name p = "no_motion_duration" \/ prop_name p = "nobody_time" ->
  from_dict p (_state_attrs self) = PBool b ->
  opt_true (custom_config_bool self "reverse_state") = false ->
  is_on self = Some (PBool ((if b then 1 else 0) <=? duration_threshold self p)).
Proof.
  intros Hp Hname Hval Hrev. unfold is_on. rewrite Hp, Hval, Hrev.
  assert (Hin : in_strs (prop_name p) ["no_motion_duration"; "nobody_time"] = true).
  { rewrite in_strs_cons. apply orb_true_iff.
    destruct Hname as [-> | ->]; [left | right]; reflexivity. }
  rewrite Hin. unfold duration_threshold, range_step, range_min, py_le_int.
  destruct (custom_config_integer self "motion_timeout") as [dur|];
    destruct (value_range p) as [[[mn mx] stp]|]; cbn;
    try (destruct (10 <=? stp)); reflexivity.
Qed.

(** X17: after an update of an available entity that has a state property,
    a state other than [None] is also recorded, under the full name of the
    state property, among the attributes. *)
Theorem lumi_state_mirrored (py : PyLib) (now : Z) (fetched : option string)
    (self e' : Entity) (p : MiotProperty) :
  _available self = true ->
  _prop_state self = Some p ->
  LumiBinarySensorEntity_async_update py now fetched self = Some e' ->
  _state e' <> PNone ->
  _prop_state e' = Some p
  /\ _state_attrs e' !! full_name p = Some (_state e').
Proof.
  intros Hav Hp H Hst.
  apply lumi_update_shape in H as (st & adt & Hcase & ->); [|exact Hav].
  split; [exact Hp|].
  apply (lumi_shape_mirror self p st adt Hp). exact Hst.
Qed.

Lemma lumi_state_mirrored_witness :
  exists e',
    LumiBinarySensorEntity_async_update sample_py 1700001000
      (Some sample_log_text) sample_lumi_magnet = Some e'
    /\ _state_attrs e' !! "magnet_sensor.contact_state" = Some (PBool true).
Proof.
  assert (Hrun : exists e',
             LumiBinarySensorEntity_async_update sample_py 1700001000
               (Some sample_log_text) sample_lumi_magnet = Some e'
             /\ _state e' = PBool true)
    by (eexists; split; vm_compute; reflexivity).
  destruct Hrun as (e' & Hrun & Hst). exists e'. split; [exact Hrun|].
  destruct (lumi_state_mirrored sample_py 1700001000 _ sample_lumi_magnet e'
              sample_contact eq_refl eq_refl Hrun) as [_ Hattr].
  { rewrite Hst. discriminate. }
  rewrite Hst in Hattr. exact Hattr.
Defined.

(** X18: for a state property that is not a duration, without
    [reverse_state], the state a Lumi update has set is what [is_on]
    reports afterwards. *)
Theorem lumi_then_is_on (py : PyLib) (now : Z) (fetched : option string)
    (self e' : Entity) (p : MiotProperty) :
  _available self = true ->
  _prop_state self = Some p ->
  in_strs (prop_name p) ["no_motion_duration"; "nobody_time"] = false ->
  opt_true (custom_config_bool self "reverse_state") = false ->
  LumiBinarySensorEntity_async_update py now fetched self = Some e' ->
  _state e' <> PNone ->
  is_on e' = Some (_state e').
Proof.
  intros Hav Hp Hname Hrev H Hst.
  apply lumi_update_shape in H as (st & adt & Hcase & ->); [|exact Hav].
  assert (Hattr := lumi_shape_mirror self p st adt Hp Hst).
  unfold is_on.
  change (_prop_state (update_attrs _ (with_state st self))) with (_prop_state self).
  rewrite Hp in Hattr |- *. unfold from_dict. rewrite Hattr.
  cbn [_state update_attrs with_state with_state_attrs custom_config_bool] in *.
  destruct Hcase as [-> | (b & ->)]; [congruence|].
  rewrite Hrev, Hname. destruct b; reflexivity.
Qed.

Lemma lumi_then_is_on_witness :
  exists e',
    LumiBinarySensorEntity_async_update sample_py 1700001000
      (Some sample_log_text) sample_lumi_magnet = Some e'
    /\ is_on e' = Some (PBool true).
Proof.
  assert (Hrun : exists e',
             LumiBinarySensorEntity_async_update sample_py 1700001000
               (Some sample_log_text) sample_lumi_magnet = Some e'
             /\ _state e' = PBool true)
    by (eexists; split; vm_compute; reflexivity).
  destruct Hrun as (e' & Hrun & Hst). exists e'. split; [exact Hrun|].
  rewrite <- Hst.
  apply (lumi_then_is_on sample_py 1700001000 _ sample_lumi_magnet e'
           sample_contact eq_refl eq_refl eq_refl eq_refl Hrun).
  rewrite Hst. discriminate.
Defined.

(** X19: for a state property that is a duration, without [reverse_state]
    and with a threshold of at least 1, [is_on] reports on after every
    Lumi update that has set a state, on or off: the boolean recorded
    under the property is compared with the threshold as 0 or 1. *)
Theorem lumi_duration_is_on (py : PyLib) (now : Z) (fetched : option string)
    (self e' : Entity) (p : MiotProperty) :
  _available self = true ->
  _prop_state self = Some p ->
  prop_name p = "no_motion_duration" \/ prop_name p = "nobody_time" ->
  opt_true (custom_config_bool self "reverse_state") = false ->
  1 <= duration_threshold self p ->
  LumiBinarySensorEntity_async_update py now fetched self = Some e' ->
  _state e' <> PNone ->
  is_on e' = Some (PBool true).
Proof.
  intros Hav Hp Hname Hrev Hdur H Hst.
  apply lumi_update_shape in H as (st & adt & Hcase & ->); [|exact Hav].
  assert (Hattr := lumi_shape_mirror self p st adt Hp Hst).
  destruct Hcase as [-> | (b & ->)]; [exfalso; apply Hst; reflexivity|].
  rewrite (is_on_duration_bool _ p b); [| exact Hp | exact Hname | | exact Hrev].
  - f_equal. f_equal. apply Z.leb_le.
    change (duration_threshold (update_attrs _ (with_state (PBool b) self)) p)
      with (duration_threshold self p).
    destruct b; lia.
  - unfold from_dict. rewrite Hattr. reflexivity.
Qed.

Lemma lumi_duration_is_on_witness :
  exists e',
    LumiBinarySensorEntity_async_update sample_py 1700000100 None
      sample_lumi_motion = Some e'
    /\ _state e' = PBool false
    /\ is_on e' = Some (PBool true).
Proof.
  assert (Hrun : exists e',
             LumiBinarySensorEntity_async_update sample_py 1700000100 None
               sample_lumi_motion = Some e'
             /\ _state e' = PBool false)
    by (eexists; split; vm_compute; reflexivity).
  destruct Hrun as (e' & Hrun & Hst). exists e'.
  split; [exact Hrun|]. split; [exact Hst|].
  apply (lumi_duration_is_on sample_py 1700000100 None sample_lumi_motion e'
           sample_duration eq_refl eq_refl (or_introl eq_refl) eq_refl);
    [vm_compute; discriminate | exact Hrun | rewrite Hst; discriminate].
Defined.

(** The three trigger attributes survive a later entry under a full name. *)
Lemma trigger_lookups (typ : pyval) (tt : Z) (at_ : string)
    (adt : gmap string pyval) :
  (adt = <["trigger_at" := PStr at_]>
           (<["trigger_time" := PInt tt]> (<["trigger_type" := typ]> ∅))
   \/ exists p st,
        adt = <[full_name p := st]>
                (<["trigger_at" := PStr at_]>
                   (<["trigger_time" := PInt tt]> (<["trigger_type" := typ]> ∅)))) ->
  adt <> ∅
  /\ adt !! "trigger_type" = Some typ
  /\ adt !! "trigger_time" = Some (PInt tt)
  /\ adt !! "trigger_at" = Some (PStr at_).
Proof.
  intros [-> | (p & st & ->)].
  - split; [apply insert_non_empty|].
    repeat split;
      repeat (first [apply lookup_insert_eq
                    | rewrite lookup_insert_ne by discriminate]).
  - split; [apply insert_non_empty|].
    rewrite !(lookup_insert_ne _ (full_name p)) by (apply full_name_ne; reflexivity).
    repeat split;
      repeat (first [apply lookup_insert_eq
                    | rewrite lookup_insert_ne by discriminate]).
Qed.

(** The result of an update on a log of at least two entries whose
    trigger is not an illumination reading. *)
Lemma lumi_update_trigger (py : PyLib) (now : Z) (fetched : option string)
    (self : Entity) (pes p0 p1 typ : pyval) (at_ : string) (n tt : Z) :
  _available self = true ->
  lumi_log py fetched self = Some pes ->
  py_len pes = Some n -> 2 <= n ->
  py_item1 pes = Some p1 -> py_item0 p1 = Some typ ->
  py_item0 pes = Some p0 -> py_int py (py_or p0 (PInt 0)) = Some tt ->
  fromtimestamp py tt = Some at_ ->
  py_eq_str typ "prop.illumination" = false ->
  exists e' st adt,
    LumiBinarySensorEntity_async_update py now fetched self = Some e'
    /\ e' = update_attrs adt (with_state st self)
    /\ adt !! "trigger_type" = Some typ
    /\ adt !! "trigger_time" = Some (PInt tt)
    /\ adt !! "trigger_at" = Some (PStr at_)
    /\ st = (if py_eq_str typ "event.motion"
                || in_strs (name (_miot_service self)) ["motion_sensor"]
             then PBool (now - tt <=? motion_timeout_or_60 self)
             else if py_eq_str typ "event.open" || py_eq_str typ "event.close"
             then PBool (py_eq_str typ "event.open")
             else if py_eq_str typ "event.leak" || py_eq_str typ "event.no_leak"
             then PBool (py_eq_str typ "event.leak")
             else PNone).
Proof.
  intros Hav Hlog Hlen Hn H1 Htyp H0 Htt Hat Hill.
  unfold LumiBinarySensorEntity_async_update.
  rewrite Hav, Hlog. cbn [negb mbind option_bind].
  rewrite (py_len_truthy pes n Hlen ltac:(lia)), Hlen.
  cbn [mbind option_bind andb].
  apply Z.leb_le in Hn. rewrite Hn.
  rewrite H1. cbn [mbind option_bind]. rewrite Htyp. cbn [mbind option_bind].
  rewrite H0. cbn [mbind option_bind]. rewrite Htt. cbn [mbind option_bind].
  rewrite Hat. cbn [mbind option_bind]. rewrite Hill. cbn [mbind option_bind].
  cbv zeta.
  change (_miot_service (with_state PNone self)) with (_miot_service self).
  change (motion_timeout_or_60 (with_state PNone self))
    with (motion_timeout_or_60 self).
  set (adt0 := <["trigger_at" := PStr at_]>
                 (<["trigger_time" := PInt tt]> (<["trigger_type" := typ]> ∅))).
  assert (Hfin : forall st,
             (st = PNone \/ exists b, st = PBool b) ->
             exists e' adt,
               Some (if decide
                          (match _prop_state (with_state st self),
                                 _state (with_state st self) with
                           | Some p, PNone => adt0
                           | Some p, s => <[full_name p := s]> adt0
                           | None, _ => adt0
                           end = ∅)
                     then with_state st self
                     else update_attrs
                            (match _prop_state (with_state st self),
                                   _state (with_state st self) with
                             | Some p, PNone => adt0
                             | Some p, s => <[full_name p := s]> adt0
                             | None, _ => adt0
                             end) (with_state st self)) = Some e'
               /\ e' = update_attrs adt (with_state st self)
               /\ adt !! "trigger_type" = Some typ
               /\ adt !! "trigger_time" = Some (PInt tt)
               /\ adt !! "trigger_at" = Some (PStr at_)).
  { intros st Hst. cbn [_prop_state _state with_state].
    assert (Hout : forall adt,
               (adt = adt0 \/ exists p s, adt = <[full_name p := s]> adt0) ->
               exists e' adt',
                 Some (if decide (adt = ∅) then with_state st self
                       else update_attrs adt (with_state st self)) = Some e'
                 /\ e' = update_attrs adt' (with_state st self)
                 /\ adt' !! "trigger_type" = Some typ
                 /\ adt' !! "trigger_time" = Some (PInt tt)
                 /\ adt' !! "trigger_at" = Some (PStr at_)).
    { intros adt Hcase.
      destruct (trigger_lookups typ tt at_ adt Hcase) as (Hne & Ha & Hb & Hc).
      destruct (decide (adt = ∅)) as [He|_]; [contradiction|].
      exists (update_attrs adt (with_state st self)), adt. auto. }
    destruct (_prop_state self) as [p|]; [|apply Hout; left; reflexivity].
    destruct Hst as [-> | (b & ->)]; apply Hout;
      [left; reflexivity | right; exists p, (PBool b); reflexivity]. }
  destruct (py_eq_str typ "event.motion"
            || in_strs (name (_miot_service self)) ["motion_sensor"]).
  { destruct (Hfin (PBool (now - tt <=? motion_timeout_or_60 self)))
      as (e' & adt & H & He & Ha & Hb & Hc); [right; eexists; reflexivity|].
    exists e'. eexists. exists adt. split; [exact H|].
    split; [exact He|]. repeat split; assumption. }
  destruct (py_eq_str typ "event.open" || py_eq_str typ "event.close").
  { destruct (Hfin (PBool (py_eq_str typ "event.open")))
      as (e' & adt & H & He & Ha & Hb & Hc); [right; eexists; reflexivity|].
    exists e'. eexists. exists adt. split; [exact H|].
    split; [exact He|]. repeat split; assumption. }
  destruct (py_eq_str typ "event.leak" || py_eq_str typ "event.no_leak").
  { destruct (Hfin (PBool (py_eq_str typ "event.leak")))
      as (e' & adt & H & He & Ha & Hb & Hc); [right; eexists; reflexivity|].
    exists e'. eexists. exists adt. split; [exact H|].
    split; [exact He|]. repeat split; assumption. }
  destruct (Hfin PNone) as (e' & adt & H & He & Ha & Hb & Hc); [left; reflexivity|].
  exists e'. eexists. exists adt. split; [exact H|].
  split; [exact He|]. repeat split; assumption.
Qed.

(** X20: on a log of at least two well-formed entries whose trigger is
    not an illumination reading the update returns, and the attributes
    then hold the trigger type, the trigger time and its printed form. *)
Theorem lumi_trigger_recorded (py : PyLib) (now : Z) (fetched : option string)
    (self : Entity) (pes p0 p1 typ : pyval) (at_ : string) (n tt : Z) :
  _available self = true ->
  lumi_log py fetched self = Some pes ->
  py_len pes = Some n -> 2 <= n ->
  py_item1 pes = Some p1 -> py_item0 p1 = Some typ ->
  py_item0 pes = Some p0 -> py_int py (py_or p0 (PInt 0)) = Some tt ->
  fromtimestamp py tt = Some at_ ->
  py_eq_str typ "prop.illumination" = false ->
  exists e',
    LumiBinarySensorEntity_async_update py now fetched self = Some e'
    /\ _state_attrs e' !! "trigger_type" = Some typ
    /\ _state_attrs e' !! "trigger_time" = Some (PInt tt)
    /\ _state_attrs e' !! "trigger_at" = Some (PStr at_).
Proof.
  intros Hav Hlog Hlen Hn H1 Htyp H0 Htt Hat Hill.
  destruct (lumi_update_trigger py now fetched self pes p0 p1 typ at_ n tt
              Hav Hlog Hlen Hn H1 Htyp H0 Htt Hat Hill)
    as (e' & st & adt & Hupd & -> & Ha & Hb & Hc & _).
  eexists. split; [exact Hupd|].
  cbn [_state_attrs update_attrs with_state_attrs with_state].
  repeat split; apply lookup_union_Some_l; assumption.
Qed.

Lemma lumi_trigger_recorded_witness :
  exists e',
    LumiBinarySensorEntity_async_update sample_py 1700001000
      (Some sample_log_text) sample_lumi_magnet = Some e'
    /\ _state_attrs e' !! "trigger_type" = Some (PStr "event.open")
    /\ _state_attrs e' !! "trigger_time" = Some (PInt 1700000000)
    /\ _state_attrs e' !! "trigger_at" = Some (PStr "2023-11-14 22:13:20").
Proof.
  apply (lumi_trigger_recorded sample_py 1700001000 (Some sample_log_text)
           sample_lumi_magnet
           (PList [PInt 1700000000; PList [PStr "event.open"; PList []]])
           (PInt 1700000000) (PList [PStr "event.open"; PList []])
           (PStr "event.open") "2023-11-14 22:13:20" 2 1700000000);
    try reflexivity; try lia.
Defined.

(** X21: on such a log, a trigger of type [event.motion], or any trigger
    for a service named [motion_sensor], sets the state to whether the
    clock reading minus the trigger time is at most the motion timeout, 60
    standing in for a timeout that is unset or zero. *)
Theorem lumi_motion_event (py : PyLib) (now : Z) (fetched : option string)
    (self : Entity) (pes p0 p1 typ : pyval) (at_ : string) (n tt : Z) :
  _available self = true ->
  lumi_log py fetched self = Some pes ->
  py_len pes = Some n -> 2 <= n ->
  py_item1 pes = Some p1 -> py_item0 p1 = Some typ ->
  py_item0 pes = Some p0 -> py_int py (py_or p0 (PInt 0)) = Some tt ->
  fromtimestamp py tt = Some at_ ->
  py_eq_str typ "prop.illumination" = false ->
  typ = PStr "event.motion" \/ name (_miot_service self) = "motion_sensor" ->
  exists e',
    LumiBinarySensorEntity_async_update py now fetched self = Some e'
    /\ _state e' = PBool (now - tt <=? motion_timeout_or_60 self).
Proof.
  intros Hav Hlog Hlen Hn H1 Htyp H0 Htt Hat Hill Hmotion.
  destruct (lumi_update_trigger py now fetched self pes p0 p1 typ at_ n tt
              Hav Hlog Hlen Hn H1 Htyp H0 Htt Hat Hill)
    as (e' & st & adt & Hupd & -> & _ & _ & _ & Hst).
  eexists. split; [exact Hupd|].
  cbn [_state update_attrs with_state_attrs with_state]. rewrite Hst.
  assert (Hc : py_eq_str typ "event.motion"
               || in_strs (name (_miot_service self)) ["motion_sensor"] = true).
  { destruct Hmotion as [-> | Hname]; [reflexivity|].
    rewrite in_strs_single, Hname. apply orb_true_r. }
  rewrite Hc. reflexivity.
Qed.

Lemma lumi_motion_event_witness :
  exists e',
    LumiBinarySensorEntity_async_update sample_py2 1700000030
      (Some sample_motion_log_text) sample_lumi_magnet = Some e'
    /\ _state e' = PBool true.
Proof.
  apply (lumi_motion_event sample_py2 1700000030 (Some sample_motion_log_text)
           sample_lumi_magnet
           (PList [PInt 1700000000; PList [PStr "event.motion"; PList []]])
           (PInt 1700000000) (PList [PStr "event.motion"; PList []])
           (PStr "event.motion") "2023-11-14 22:13:20" 2 1700000000);
    try reflexivity; try lia; left; reflexivity.
Defined.

(** ** More on the helper entities of the toilet *)

(** When every property that has values already has a helper, the loop
    builds nothing. *)
Lemma fans_loop_all_present (add_fans : bool)
    (pls : list (MiotProperty * MiotService)) :
  forall (subs : gmap string SubEntity) (added : list (string * SubEntity)),
    (forall p srv, (p, srv) ∈ pls -> has_values p = true ->
                   is_Some (subs !! prop_name p)) ->
    (fans_loop add_fans pls subs added).2 = added.
Proof.
  intros subs added Hall.
  destruct (fans_loop_spec add_fans pls subs added)
    as (new & Hadd & _ & _ & Hnew & _).
  rewrite Hadd. destruct new as [|[k s] new]; [apply app_nil_r|].
  destruct (Hnew k s ltac:(left)) as (Hfree & _ & p & srv & Hin & Hval & -> & _).
  destruct (Hall p srv Hin Hval) as [s' Hs']. congruence.
Qed.

(** The service has no seat beside it, or the seat has a heat level: the
    update then goes without the base-class call for the seat. *)
Definition seat_settled (srv : MiotService) : Prop :=
  match get_service (spec srv) ["seat"] with
  | Some seat => is_Some (get_property seat ["heat_level"])
  | None => True
  end.

Lemma toilet_pls_settled
    (upd : list string -> list string -> string -> Entity -> Entity)
    (self : Entity) (subs : gmap string SubEntity) :
  seat_settled (_miot_service self) ->
  (toilet_pls upd self).1 = self
  /\ toilet_pls upd (with_subs subs self)
     = (with_subs subs self, (toilet_pls upd self).2).
Proof.
  unfold seat_settled, toilet_pls. cbn [_miot_service with_subs].
  destruct (get_service (spec (_miot_service self)) ["seat"]) as [seat|];
    [|split; reflexivity].
  intros [prop ->]. split; reflexivity.
Qed.

(** X22: when the update goes without the base-class call for the seat,
    running it a second time right after the first builds no helper at
    all, and keeps every helper the first run left. *)
Theorem toilet_second_update
    (upd : list string -> list string -> string -> Entity -> Entity)
    (self e' e'' : Entity)
    (fans switches fans2 switches2 : list (string * SubEntity)) :
  _available self = true ->
  seat_settled (_miot_service self) ->
  MiotToiletEntity_async_update upd self = (e', fans, switches) ->
  MiotToiletEntity_async_update upd e' = (e'', fans2, switches2) ->
  fans2 = [] /\ switches2 = []
  /\ (forall k s, _subs e' !! k = Some s ->
        exists s', _subs e'' !! k = Some s' /\ sub_kept s s').
Proof.
  intros Hav Hseat Hone Htwo.
  destruct (toilet_pls upd self) as [e1 pls] eqn:Hpls.
  destruct (toilet_pls_settled upd self (_subs e') Hseat) as [He1 Hpls2].
  rewrite Hpls in He1, Hpls2. cbn [fst snd] in He1, Hpls2. subst e1.
  unfold MiotToiletEntity_async_update in Hone.
  rewrite Hav, Hpls in Hone. cbn [negb] in Hone.
  destruct (fans_loop_spec (in_strs "fan" (_add_entities self)) pls (_subs self) [])
    as (new & _ & _ & _ & _ & Hcov).
  destruct (fans_loop (in_strs "fan" (_add_entities self)) pls (_subs self) [])
    as [subs2 fansA] eqn:Hloop.
  cbn [fst] in Hcov.
  destruct (power_switch_spec (in_strs "switch" (_add_entities self))
              (_prop_power self) subs2) as (Pkept & _ & Pcov).
  destruct (power_switch (in_strs "switch" (_add_entities self)) (_prop_power self)
              subs2 []) as [subs3 swA] eqn:Hpow.
  cbn [fst] in Pkept, Pcov.
  injection Hone as <- <- <-.
  cbn [_subs with_subs] in Hpls2.
  unfold MiotToiletEntity_async_update in Htwo.
  cbn [_available with_subs] in Htwo. rewrite Hav in Htwo. cbn [negb] in Htwo.
  rewrite Hpls2 in Htwo.
  cbn [_add_entities _subs _prop_power with_subs] in Htwo.
  assert (Hfans : (fans_loop (in_strs "fan" (_add_entities self)) pls subs3 []).2 = []).
  { destruct (in_strs "fan" (_add_entities self)) eqn:Hadd.
    - apply fans_loop_all_present. intros p srv Hin Hval.
      destruct (Hcov eq_refl p srv Hin Hval) as [s2 Hs2].
      destruct (Pkept _ s2 Hs2) as (s3 & Hs3 & _). rewrite Hs3. eexists; reflexivity.
    - apply fans_loop_no_callback. }
  destruct (fans_loop_spec (in_strs "fan" (_add_entities self)) pls subs3 [])
    as (_ & _ & Hkept2 & _).
  destruct (fans_loop (in_strs "fan" (_add_entities self)) pls subs3 [])
    as [subs4 fansB] eqn:Hloop2.
  cbn [fst snd] in Hfans, Hkept2. subst fansB.
  destruct (power_switch_spec (in_strs "switch" (_add_entities self))
              (_prop_power self) subs4) as (Pkept2 & _ & _).
  assert (Hsw : (power_switch (in_strs "switch" (_add_entities self))
                   (_prop_power self) subs4 []).2 = []).
  { destruct (power_switch (in_strs "switch" (_add_entities self))
                (_prop_power self) subs4 []).2 as [|[k s] rest] eqn:Hsw2;
      [reflexivity|].
    assert (Hin : (k, s) ∈ (power_switch (in_strs "switch" (_add_entities self))
                              (_prop_power self) subs4 []).2)
      by (rewrite Hsw2; left).
    apply power_switch_created in Hin as (Hadd & pw & Hpw & _ & Hfree & _).
    destruct (Pcov Hadd pw Hpw) as [s3 Hs3].
    destruct (Hkept2 _ s3 Hs3) as (s4 & Hs4 & _). congruence. }
  destruct (power_switch (in_strs "switch" (_add_entities self)) (_prop_power self)
              subs4 []) as [subs5 swB] eqn:Hpow2.
  cbn [fst snd] in Hsw, Pkept2. subst swB.
  injection Htwo as <- <- <-.
  split; [reflexivity|]. split; [reflexivity|].
  intros k s Hk. cbn [_subs with_subs] in *.
  destruct (Hkept2 k s Hk) as (s4 & Hs4 & Hk4).
  destruct (Pkept2 k s4 Hs4) as (s5 & Hs5 & Hk5).
  exists s5. split; [exact Hs5 | eapply sub_kept_trans; eassumption].
Qed.

Lemma toilet_second_update_witness :
  exists e' fans switches e'' fans2 switches2,
    MiotToiletEntity_async_update sample_update_sub_entities sample_toilet
    = (e', fans, switches)
    /\ MiotToiletEntity_async_update sample_update_sub_entities e'
       = (e'', fans2, switches2)
    /\ length fans = 2%nat /\ fans2 = [] /\ switches2 = [].
Proof.
  destruct (MiotToiletEntity_async_update sample_update_sub_entities sample_toilet)
    as [[e' fans] switches] eqn:Hone.
  destruct (MiotToiletEntity_async_update sample_update_sub_entities e')
    as [[e'' fans2] switches2] eqn:Htwo.
  exists e', fans, switches, e'', fans2, switches2.
  split; [reflexivity|]. split; [exact Htwo|].
  split.
  - vm_compute in Hone. injection Hone as _ <- _. reflexivity.
  - destruct (toilet_second_update sample_update_sub_entities sample_toilet
                e' e'' fans switches fans2 switches2 eq_refl)
      as (H1 & H2 & _); [| exact Hone | exact Htwo | split; assumption].
    unfold seat_settled. vm_compute. eexists; reflexivity.
Defined.

(** X23: every helper handed to the fan callback follows a property that
    has values, taken from the service (one of the four names) or from the
    seat, starts with no update, and carries a [power_property] option
    only for [heat_level]: the boolean [heating] property of the owning
    service.  Every helper handed to the switch callback follows the full
    name of the power property. *)
Theorem toilet_helper_origin
    (upd : list string -> list string -> string -> Entity -> Entity)
    (self e1 e' : Entity) (pls : list (MiotProperty * MiotService))
    (fans switches : list (string * SubEntity)) :
  _available self = true ->
  toilet_pls upd self = (e1, pls) ->
  MiotToiletEntity_async_update upd self = (e', fans, switches) ->
  (forall k s, (k, s) ∈ fans ->
     exists p srv,
       (p, srv) ∈ pls /\ has_values p = true /\ k = prop_name p
       /\ sub_cls s = MiotModesSubEntity
       /\ sub_property s = Some p /\ sub_updates s = 0%nat
       /\ sub_option s = if String.eqb (prop_name p) "heat_level"
                         then Some (bool_property srv ["heating"]) else None)
  /\ (forall k s, (k, s) ∈ switches ->
        exists pw, _prop_power e1 = Some pw /\ k = full_name pw
                   /\ sub_cls s = SwitchSubEntity /\ sub_attr s = Some k
                   /\ sub_updates s = 0%nat).
Proof.
  intros Hav Hpls Hupd.
  unfold MiotToiletEntity_async_update in Hupd.
  rewrite Hav, Hpls in Hupd. cbn [negb] in Hupd.
  destruct (fans_loop_spec (in_strs "fan" (_add_entities self)) pls (_subs e1) [])
    as (new & Hadd & _ & _ & Hnew & _).
  destruct (fans_loop (in_strs "fan" (_add_entities self)) pls (_subs e1) [])
    as [subs2 fans2] eqn:Hloop.
  cbn [fst snd app] in Hadd, Hnew. subst fans2.
  assert (Psw := power_switch_created (in_strs "switch" (_add_entities e1))
                   (_prop_power e1) subs2).
  destruct (power_switch (in_strs "switch" (_add_entities e1)) (_prop_power e1)
              subs2 []) as [subs3 sw] eqn:Hpow.
  cbn [snd] in Psw. injection Hupd as _ <- <-.
  split.
  - intros k s Hin.
    destruct (Hnew k s Hin) as (_ & _ & p & srv & Hp & Hval & -> & ->).
    exists p, srv. unfold new_fan.
    cbn [sub_cls sub_property sub_updates sub_option].
    rewrite in_strs_single. repeat split; auto.
  - intros k s Hin.
    destruct (Psw k s Hin) as (_ & pw & Hpw & -> & _ & ->).
    exists pw. repeat split; auto.
Qed.

Lemma toilet_helper_origin_witness :
  exists e' fans switches,
    MiotToiletEntity_async_update sample_update_sub_entities sample_toilet
    = (e', fans, switches)
    /\ forall k s, (k, s) ∈ switches -> sub_attr s = Some k.
Proof.
  destruct (MiotToiletEntity_async_update sample_update_sub_entities sample_toilet)
    as [[e' fans] switches] eqn:Hupd.
  exists e', fans, switches. split; [reflexivity|].
  destruct (toilet_helper_origin sample_update_sub_entities sample_toilet
              sample_toilet e' _ fans switches eq_refl eq_refl Hupd) as [_ Hsw].
  intros k s Hin. destruct (Hsw k s Hin) as (pw & _ & _ & _ & Hattr & _).
  exact Hattr.
Defined.

(** X24: with neither callback registered the update builds nothing and
    the names under which helpers are stored stay the same. *)
Theorem toilet_without_callbacks
    (upd : list string -> list string -> string -> Entity -> Entity)
    (self e1 e' : Entity) (pls : list (MiotProperty * MiotService))
    (fans switches : list (string * SubEntity)) :
  toilet_pls upd self = (e1, pls) ->
  in_strs "fan" (_add_entities self) = false ->
  in_strs "switch" (_add_entities e1) = false ->
  MiotToiletEntity_async_update upd self = (e', fans, switches) ->
  fans = [] /\ switches = []
  /\ (_available self = true -> dom (_subs e') = dom (_subs e1)).
Proof.
  intros Hpls Hfan Hsw Hupd. unfold MiotToiletEntity_async_update in Hupd.
  destruct (_available self); cbn [negb] in Hupd.
  2:{ injection Hupd as <- <- <-. repeat split; discriminate. }
  rewrite Hpls, Hfan, Hsw in Hupd.
  destruct (fans_loop_no_callback pls (_subs e1) []) as [Ha Hd].
  destruct (fans_loop false pls (_subs e1) []) as [subs2 fans2].
  cbn [fst snd] in Ha, Hd. subst fans2.
  unfold power_switch in Hupd.
  destruct (_prop_power e1) as [pw|];
    [destruct (subs2 !! full_name pw) as [s|] eqn:Hsub|];
    injection Hupd as <- <- <-; cbn [_subs with_subs];
    (split; [reflexivity|]); (split; [reflexivity|]); intros _;
    try exact Hd.
  rewrite <- Hd. apply dom_insert_lookup_L. eexists; exact Hsub.
Qed.

Lemma toilet_without_callbacks_witness :
  (MiotToiletEntity_async_update sample_update_sub_entities sample_toilet_alone).2
  = [].
Proof.
  destruct (MiotToiletEntity_async_update sample_update_sub_entities
              sample_toilet_alone) as [[e' fans] switches] eqn:Hupd.
  destruct (toilet_without_callbacks sample_update_sub_entities sample_toilet_alone
              sample_toilet_alone e' _ fans switches eq_refl eq_refl eq_refl Hupd)
    as (_ & Hsw & _).
  exact Hsw.
Defined.

(** ** When the setup raises *)

Lemma init_none_inv
    (init : MiotService -> Config -> option (list (string * (Z * Z))) -> Entity)
    (config : Config) (srv : MiotService) (kw : option (list (string * (Z * Z)))) :
  MiotBinarySensorEntity_init init config srv kw = None ->
  name srv = "motion_sensor"
  /\ get_property srv ["motion_state"; "no_motion_duration"] = None
  /\ first_named_property srv = None.
Proof.
  unfold MiotBinarySensorEntity_init. cbv zeta.
  rewrite initial_property, !in_strs_single.
  cbn [_prop_state with_prop_state].
  remember (get_property srv ["motion_state"; "no_motion_duration"]) as ms.
  remember (first_named_property srv) as fp.
  rewrite bind_None.
  intros [H | (self & _ & H)]; [|cbv beta in H; discriminate H].
  destruct (String.eqb (name srv) "motion_sensor") eqn:Hname; [|discriminate H].
  apply String.eqb_eq in Hname.
  apply bind_None in H as [H | (p & _ & H)]; [|cbv beta in H; discriminate H].
  destruct ms; [discriminate H|]. destruct fp; [discriminate H|]. auto.
Qed.

Lemma setup_services_none
    (init : MiotService -> Config -> option (list (string * (Z * Z))) -> Entity)
    (config : Config) (did model : string) (sp : MiotSpec)
    (srvs : list MiotService) :
  forall acc,
    setup_services init config did model sp srvs acc = None ->
    exists srv, In srv srvs /\ new_entity init config did model sp srv = None.
Proof.
  induction srvs as [|srv rest IH]; intros acc; [discriminate|].
  cbn [setup_services]. destruct (skipped model sp srv).
  - intros H. apply IH in H as (s & Hin & Hs). exists s. split; [right|]; assumption.
  - destruct (new_entity init config did model sp srv) eqn:Hnew.
    + cbn [mbind option_bind]. intros H. apply IH in H as (s & Hin & Hs).
      exists s. split; [right|]; assumption.
    + intros _. exists srv. split; [left; reflexivity | exact Hnew].
Qed.

(** X25: the setup raises only over a service named [motion_sensor] that
    has no [motion_state], no [no_motion_duration] and no named first
    property. *)
Theorem setup_raises_only_bare_motion_sensor
    (init : MiotService -> Config -> option (list (string * (Z * Z))) -> Entity)
    (from_type : string -> MiotSpec) (config : Config) :
  async_setup_platform init from_type config = None ->
  exists miot n,
    conf_miot_type config = Some miot
    /\ In n (services (from_type miot))
    /\ srv_name n = "motion_sensor"
    /\ get_property {| node := n; spec := from_type miot |}
         ["motion_state"; "no_motion_duration"] = None
    /\ first_named_property {| node := n; spec := from_type miot |} = None.
Proof.
  unfold async_setup_platform. intros H.
  destruct (conf_miot_type config) as [miot|]; [|discriminate H].
  destruct (negb (String.eqb miot "")); [|discriminate H].
  apply setup_services_none in H as (srv & Hin & Hnew).
  unfold get_services in Hin. apply list_elem_of_In in Hin.
  apply list_elem_of_fmap in Hin as (n & -> & Hn).
  apply list_elem_of_filter in Hn as [_ Hn]. apply list_elem_of_In in Hn.
  exists miot, n. split; [reflexivity|]. split; [exact Hn|].
  assert (Hbase : exists kw,
             MiotBinarySensorEntity_init init config
               {| node := n; spec := from_type miot |} kw = None).
  { unfold new_entity, MiotToiletEntity_init, BleBinarySensorEntity_init,
      LumiBinarySensorEntity_init in Hnew.
    repeat match type of Hnew with
           | (if ?c then _ else _) = _ => destruct c
           end;
      try (apply bind_None in Hnew as [Hnew | (x & _ & Hnew)];
           [eexists; exact Hnew | cbv beta zeta in Hnew; discriminate Hnew]).
    eexists; exact Hnew. }
  destruct Hbase as [kw Hbase]. apply init_none_inv in Hbase. exact Hbase.
Qed.

Lemma setup_raises_only_bare_motion_sensor_witness :
  async_setup_platform sample_base (fun _ => sample_bare_spec) sample_config = None
  /\ exists miot n,
       conf_miot_type sample_config = Some miot
       /\ In n (services sample_bare_spec)
       /\ srv_name n = "motion_sensor".
Proof.
  assert (Hnone : async_setup_platform sample_base (fun _ => sample_bare_spec)
                    sample_config = None) by (vm_compute; reflexivity).
  split; [exact Hnone|].
  destruct (setup_raises_only_bare_motion_sensor sample_base
              (fun _ => sample_bare_spec) sample_config Hnone)
    as (miot & n & H1 & H2 & H3 & _).
  exists miot, n. auto.
Defined.
